(** * NYSC account registration: record store, submission workflow, backups

    A shallow embedding of [app.py]: the [submissions] table and the SQL
    statements the handlers issue, the form normalisation of [preview] and
    [submit], the administrative handlers ([admin_dashboard], [search],
    [delete], [edit]), and the backup functions ([backup_db],
    [list_backups], [get_backup_db], [view_backup],
    [download_backup_record]) over a model of the file system.

    Scope of the model.
    - Text is a byte string; [upper] and the case folding of [LIKE] act on
      the ASCII letters. [upper] is Python's [str.upper] on ASCII text
      ([is_ascii]) only: what is stated of the letters and the length of an
      upper-cased value is stated of ASCII values.
    - [like] is SQLite's [LIKE] on text without a NUL character
      ([nul_free]) and for a pattern of at most [like_pattern_limit] bytes:
      SQLite ends pattern and text at the first NUL and refuses a longer
      pattern. What is stated of the records [search] returns is stated
      within these bounds.
    - Integers are unbounded ([Z]). sqlite3 binds an id below [2^63] only;
      what is stated of the outcome of a statement run with an id taken
      from the URL is stated of [bindable] ids.
    - [os_makedirs] creates the last folder of a path whose parent exists;
      [os.makedirs] creates missing ancestors as well.
    - A file holds the database image its bytes encode; other files and
      symbolic links are outside the model.
    - The clock is an argument of the functions that read it.
    - Log records keep their level and message template. *)

From Stdlib Require Import ZArith Ascii String List Lia Permutation.
From stdpp Require Import base strings gmap list sorting pretty.

Local Open Scope Z_scope.
Local Open Scope string_scope.
Local Open Scope list_scope.

(** ** Text *)

(** [str.upper()] on ASCII text. *)
Definition ascii_upper (c : ascii) : ascii :=
  let n := nat_of_ascii c in
  if ((97 <=? n) && (n <=? 122))%nat then ascii_of_nat (n - 32) else c.

Fixpoint upper (s : string) : string :=
  match s with
  | EmptyString => EmptyString
  | String c s' => String (ascii_upper c) (upper s')
  end.

(** [str.strip()]: Python's ASCII white space, removed at both ends. Used
    only to state what trimming would give; [app.py] never calls it. *)
Definition is_py_space (c : ascii) : bool :=
  let n := nat_of_ascii c in
  (((9 <=? n) && (n <=? 13)) || ((28 <=? n) && (n <=? 32)))%nat.

Fixpoint lstrip (s : string) : string :=
  match s with
  | EmptyString => EmptyString
  | String c s' => if is_py_space c then lstrip s' else s
  end.

Definition strip (s : string) : string :=
  String.rev (lstrip (String.rev (lstrip s))).

(** [s.startswith(p)] and [s.endswith(p)]. *)
Fixpoint startswith (p s : string) : bool :=
  match p, s with
  | EmptyString, _ => true
  | String _ _, EmptyString => false
  | String a p', String b s' => Ascii.eqb a b && startswith p' s'
  end.

Definition endswith (p s : string) : bool :=
  startswith (String.rev p) (String.rev s).

(** The components of a path string: [s.split("/")]. *)
Fixpoint split_slash (s : string) : list string :=
  match s with
  | EmptyString => [EmptyString]
  | String c s' =>
      if Ascii.eqb c "/" then EmptyString :: split_slash s'
      else match split_slash s' with
           | [] => [String c EmptyString]
           | x :: xs => String c x :: xs
           end
  end.

(** No NUL character in the string. *)
Fixpoint nul_free (s : string) : bool :=
  match s with
  | EmptyString => true
  | String c s' => negb (Ascii.eqb c Ascii.zero) && nul_free s'
  end.

(** Every character of the string is an ASCII character. *)
Fixpoint is_ascii (s : string) : bool :=
  match s with
  | EmptyString => true
  | String c s' => (nat_of_ascii c <? 128)%nat && is_ascii s'
  end.

(** No [/] in the string. *)
Fixpoint slash_free (s : string) : bool :=
  match s with
  | EmptyString => true
  | String c s' => negb (Ascii.eqb c "/") && slash_free s'
  end.

(** Neither [%] nor [_] in the string: the characters [LIKE] gives a
    meaning of their own. *)
Fixpoint wildcard_free (s : string) : bool :=
  match s with
  | EmptyString => true
  | String c s' =>
      negb (Ascii.eqb c "%") && negb (Ascii.eqb c "_") && wildcard_free s'
  end.

(** ** Clock values and their two text forms *)

Record datetime := {
  year : nat; month : nat; day : nat;
  hour : nat; minute : nat; second : nat
}.

Definition digit (d : nat) : ascii := ascii_of_nat (48 + d).

(** The [w] low decimal digits of [n], most significant first: a
    zero-padded field of [strftime]. *)
Fixpoint zpad (w n : nat) : string :=
  match w with
  | O => EmptyString
  | S w' => String (digit ((n / 10 ^ w') mod 10)) (zpad w' n)
  end.

(** [strftime('%Y-%m-%d_%H-%M-%S')], as [backup_db] calls it. *)
Definition strftime_backup (t : datetime) : string :=
  zpad 4 (year t) +:+ "-" +:+ zpad 2 (month t) +:+ "-" +:+ zpad 2 (day t)
  +:+ "_" +:+ zpad 2 (hour t) +:+ "-" +:+ zpad 2 (minute t) +:+ "-"
  +:+ zpad 2 (second t).

(** SQLite's [CURRENT_TIMESTAMP]: ['YYYY-MM-DD HH:MM:SS']. *)
Definition CURRENT_TIMESTAMP (t : datetime) : string :=
  zpad 4 (year t) +:+ "-" +:+ zpad 2 (month t) +:+ "-" +:+ zpad 2 (day t)
  +:+ " " +:+ zpad 2 (hour t) +:+ ":" +:+ zpad 2 (minute t) +:+ ":"
  +:+ zpad 2 (second t).

(** The values a [datetime] can hold: years 1 to 9999, and the usual
    ranges below. *)
Definition valid_datetime (t : datetime) : Prop :=
  (1 <= year t < 10 ^ 4 /\ 1 <= month t <= 12 /\ 1 <= day t <= 31 /\
   hour t <= 23 /\ minute t <= 59 /\ second t <= 59)%nat.

(** Chronological order: the comparison of two clock values, field by
    field from the year down. *)
Definition then_compare (c : comparison) (d : comparison) : comparison :=
  match c with
  | Eq => d
  | _ => c
  end.

Definition dt_compare (a b : datetime) : comparison :=
  then_compare (year a ?= year b)%nat
    (then_compare (month a ?= month b)%nat
      (then_compare (day a ?= day b)%nat
        (then_compare (hour a ?= hour b)%nat
          (then_compare (minute a ?= minute b)%nat
            (second a ?= second b)%nat)))).

(** [a] was taken no earlier than [b]. *)
Definition not_older (a b : datetime) : Prop := dt_compare a b <> Lt.

(** ** The [submissions] table *)

(** The nine caller-supplied columns: the [data] dictionary of [preview]
    and [submit], and the parameters of the [UPDATE] in [edit]. *)
Record Data := {
  state_code : string;
  corps_member_name : string;
  sex : string;
  bank_name : string;
  account_number : string;
  phone_number : string;
  callup_number : string;
  callup_letter_name : string;
  account_name : string
}.

(** A row: [id INTEGER PRIMARY KEY AUTOINCREMENT], the nine text columns,
    [submitted_at DATETIME DEFAULT CURRENT_TIMESTAMP]. *)
Record Row := {
  id : Z;
  fields : Data;
  submitted_at : string
}.

(** The table in rowid order, with the counter SQLite keeps in
    [sqlite_sequence] for an AUTOINCREMENT key. *)
Record Table := {
  rows : list Row;
  seq : Z
}.

Definition empty_table : Table := {| rows := []; seq := 0 |}.

Definition max_rowid (l : list Row) : Z :=
  fold_right (fun r m => Z.max (id r) m) 0 l.

(** AUTOINCREMENT: one more than the largest rowid the table has ever
    held. *)
Definition next_rowid (t : Table) : Z := Z.max (seq t) (max_rowid (rows t)) + 1.

(** [SELECT * FROM submissions WHERE account_number=?] with [fetchone()]. *)
Definition select_by_account (t : Table) (a : string) : option Row :=
  List.find (fun r => String.eqb (account_number (fields r)) a) (rows t).

(** [INSERT INTO submissions (state_code, ..., account_name) VALUES (...)]:
    [id] and [submitted_at] take their defaults. *)
Definition insert_row (t : Table) (now : datetime) (d : Data) : Table :=
  let i := next_rowid t in
  {| rows := rows t ++ [ {| id := i; fields := d;
                            submitted_at := CURRENT_TIMESTAMP now |} ];
     seq := i |}.

(** [SELECT * FROM submissions WHERE id = ?] with [fetchone()]. *)
Definition select_by_id (t : Table) (i : Z) : option Row :=
  List.find (fun r => Z.eqb (id r) i) (rows t).

(** [DELETE FROM submissions WHERE id = ?]. *)
Definition delete_row (t : Table) (i : Z) : Table :=
  {| rows := List.filter (fun r => negb (Z.eqb (id r) i)) (rows t);
     seq := seq t |}.

(** [UPDATE submissions SET state_code = ?, ..., account_name = ?
    WHERE id = ?]. *)
Definition update_row (t : Table) (i : Z) (d : Data) : Table :=
  {| rows := List.map (fun r =>
                if Z.eqb (id r) i
                then {| id := id r; fields := d; submitted_at := submitted_at r |}
                else r) (rows t);
     seq := seq t |}.

(** [ORDER BY submitted_at DESC]: text comparison of the column; rows with
    equal keys keep their scan order here (SQLite leaves it open). *)
Fixpoint insert_desc (r : Row) (l : list Row) : list Row :=
  match l with
  | [] => [r]
  | x :: l' =>
      if String.leb (submitted_at x) (submitted_at r)
      then r :: l
      else x :: insert_desc r l'
  end.

Definition order_by_submitted_at_desc (l : list Row) : list Row :=
  fold_right insert_desc [] l.

(** [SELECT * FROM submissions ORDER BY submitted_at DESC]. *)
Definition select_all_desc (t : Table) : list Row :=
  order_by_submitted_at_desc (rows t).

(** SQLite's [LIKE] without an ESCAPE clause: [%] matches any run of
    characters, [_] any one character, every other character itself up to
    ASCII case. This is SQLite's operator on a pattern and a text without
    NUL, the pattern being at most [like_pattern_limit] bytes long. *)
Fixpoint like (p t : string) : bool :=
  match p with
  | EmptyString => match t with EmptyString => true | _ => false end
  | String c p' =>
      if Ascii.eqb c "%" then
        (fix skip (u : string) : bool :=
           like p' u
           || match u with
              | EmptyString => false
              | String _ u' => skip u'
              end) t
      else
        match t with
        | EmptyString => false
        | String d t' =>
            (Ascii.eqb c "_" || Ascii.eqb (ascii_upper c) (ascii_upper d))
            && like p' t'
        end
  end.

(** SQLite's default limit on the length of a [LIKE] pattern, in bytes. *)
Definition like_pattern_limit : Z := 50000.

(** The three columns [search] matches hold no NUL character. *)
Definition searched_nul_free (r : Row) : bool :=
  nul_free (corps_member_name (fields r))
  && nul_free (state_code (fields r))
  && nul_free (account_number (fields r)).

(** An id the [<int:id>] converter of a route can carry and sqlite3 can
    bind to a parameter: a non-negative integer below [2^63]. *)
Definition bindable (i : Z) : Prop := 0 <= i < 2 ^ 63.

(** [SELECT * FROM submissions WHERE corps_member_name LIKE ? OR
    state_code LIKE ? OR account_number LIKE ?], the three parameters being
    the same pattern. *)
Definition select_like (t : Table) (pat : string) : list Row :=
  List.filter (fun r =>
      like pat (corps_member_name (fields r))
      || like pat (state_code (fields r))
      || like pat (account_number (fields r))) (rows t).

(** ** The file system *)

(** A node is named by its canonical location, the list of names from the
    root. A file holds the database image its bytes encode: [None] is the
    empty (zero-length) file, a database without tables. *)
Inductive node :=
  | Dir
  | File (image : option Table).

(** A path as the program builds it: a directory whose canonical location
    is known, and the components still to be walked from there, which may
    be empty, ["."] or [".."]. *)
Record ospath := {
  anchor : list string;
  comps : list string
}.

(** [os.path.join(a, b)]: an absolute [b] discards [a]. *)
Definition os_path_join (a : ospath) (b : string) : ospath :=
  if startswith "/" b
  then {| anchor := []; comps := split_slash b |}
  else {| anchor := anchor a; comps := comps a ++ split_slash b |}.

Definition is_dot (c : string) : bool :=
  String.eqb c EmptyString || String.eqb c "." || String.eqb c "..".

(** One component of a path walk. *)
Definition step (cur : list string) (c : string) : list string :=
  if String.eqb c EmptyString || String.eqb c "." then cur
  else if String.eqb c ".." then removelast cur
  else cur ++ [c].

(** Path resolution as the kernel does it: every component is looked up
    in a directory; the result is the canonical location of an existing
    node. *)
Fixpoint walk (fs : gmap (list string) node) (cur : list string)
    (cs : list string) : option (list string) :=
  match cs with
  | [] => match fs !! cur with Some _ => Some cur | None => None end
  | c :: cs' =>
      match fs !! cur with
      | Some Dir => walk fs (step cur c) cs'
      | _ => None
      end
  end.

Definition resolve (fs : gmap (list string) node) (p : ospath)
    : option (list string) :=
  walk fs (anchor p) (comps p).

(** Where a file that does not exist yet would be created: its directory
    must resolve and its last component must be a name. *)
Definition resolve_new (fs : gmap (list string) node) (p : ospath)
    : option (list string) :=
  match List.rev (comps p) with
  | [] => None
  | leaf :: rdir =>
      if is_dot leaf then None
      else match walk fs (anchor p) (List.rev rdir) with
           | Some d =>
               match fs !! d, fs !! (d ++ [leaf]) with
               | Some Dir, None => Some (d ++ [leaf])
               | _, _ => None
               end
           | None => None
           end
  end.

(** The names in a directory, for [os.listdir]. *)
Definition child_name (d p : list string) : option string :=
  if decide (take (length d) p = d ∧ length p = S (length d))
  then last p else None.

Definition children (fs : gmap (list string) node) (d : list string)
    : list string :=
  omap (child_name d) (map_to_list fs).*1.

(** ** Exceptions, the world, and the monad of the handlers *)

Inductive exn :=
  | OperationalError (msg : string)
  | BadRequestKeyError (key : string)
  | FileNotFoundError
  | FileExistsError
  | NotADirectoryError
  | IsADirectoryError
  | Exception (msg : string).

Inductive level := DEBUG | INFO | WARNING | ERROR | CRITICAL.

Record World := {
  fs : gmap (list string) node;
  log : list (level * string)
}.

Inductive result (A : Type) :=
  | Ok (a : A)
  | Raise (e : exn).
Arguments Ok {A} a.
Arguments Raise {A} e.

Definition M (A : Type) : Type := World -> result A * World.

Definition ret {A} (a : A) : M A := fun w => (Ok a, w).

Definition bind {A B} (m : M A) (k : A -> M B) : M B :=
  fun w => match m w with
           | (Ok a, w') => k a w'
           | (Raise e, w') => (Raise e, w')
           end.

Definition raise {A} (e : exn) : M A := fun w => (Raise e, w).

(** [try: m  except Exception as e: h e]. *)
Definition try_except {A} (m : M A) (h : exn -> M A) : M A :=
  fun w => match m w with
           | (Ok a, w') => (Ok a, w')
           | (Raise e, w') => h e w'
           end.

Notation "'let*' x := m 'in' k" := (bind m (fun x => k))
  (at level 10, x name, m at level 100, k at level 200).
Notation "m >>> k" := (bind m (fun _ => k))
  (at level 100, k at level 200, right associativity).

(** The value a computation returned, if it did. *)
Definition fst_ok {A} (x : result A * World) : option A :=
  match fst x with
  | Ok a => Some a
  | Raise _ => None
  end.

Definition get_fs : M (gmap (list string) node) := fun w => (Ok (fs w), w).

Definition put_node (p : list string) (n : node) : M unit :=
  fun w => (Ok tt, {| fs := <[p := n]> (fs w); log := log w |}).

(** [logging.debug/info/warning/error/critical]. *)
Definition logging (l : level) (msg : string) : M unit :=
  fun w => (Ok tt, {| fs := fs w; log := log w ++ [(l, msg)] |}).

(** [frame keep m Q]: running [m] leaves the nodes at the locations in
    [keep] as they were, and a value it returns satisfies [Q]. *)
Definition frame {A} (keep : list string -> Prop) (m : M A) (Q : A -> Prop)
    : Prop :=
  forall w,
    (forall p, keep p -> fs (snd (m w)) !! p = fs w !! p) /\
    (forall a, fst (m w) = Ok a -> Q a).

(** ** Files *)

(** [os.path.exists(p)]. *)
Definition os_path_exists (p : ospath) : M bool :=
  let* f := get_fs in
  ret (match resolve f p with Some _ => true | None => false end).

(** [os.makedirs(p, exist_ok=True)], from the anchor of [p] down. The
    anchor is a directory the program has already made sure of. *)
Fixpoint makedirs_go (cur : list string) (cs : list string) : M unit :=
  match cs with
  | [] => ret tt
  | c :: cs' =>
      let* f := get_fs in
      match f !! cur with
      | Some Dir =>
          let nxt := step cur c in
          match f !! nxt with
          | Some Dir => makedirs_go nxt cs'
          | Some (File _) =>
              raise (match cs' with [] => FileExistsError
                                  | _ => NotADirectoryError end)
          | None =>
              if is_dot c then raise FileNotFoundError
              else put_node nxt Dir >>> makedirs_go nxt cs'
          end
      | Some (File _) => raise NotADirectoryError
      | None => raise FileNotFoundError
      end
  end.

Definition os_makedirs (p : ospath) : M unit :=
  match comps p with
  | [] =>
      let* f := get_fs in
      match f !! anchor p with
      | Some Dir => ret tt
      | Some (File _) => raise FileExistsError
      | None => raise FileNotFoundError
      end
  | cs => makedirs_go (anchor p) cs
  end.

(** [os.listdir(p)]. *)
Definition os_listdir (p : ospath) : M (list string) :=
  let* f := get_fs in
  match resolve f p with
  | Some d =>
      match f !! d with
      | Some Dir => ret (children f d)
      | _ => raise NotADirectoryError
      end
  | None => raise FileNotFoundError
  end.

(** [open(p, 'rb')]: the handle is the canonical location of the file. *)
Definition open_rb (p : ospath) : M (list string) :=
  let* f := get_fs in
  match resolve f p with
  | Some q =>
      match f !! q with
      | Some (File _) => ret q
      | _ => raise IsADirectoryError
      end
  | None => raise FileNotFoundError
  end.

(** [open(p, 'wb')]: creates the file, or empties the one that is there. *)
Definition open_wb (p : ospath) : M (list string) :=
  let* f := get_fs in
  match resolve f p with
  | Some q =>
      match f !! q with
      | Some (File _) => put_node q (File None) >>> ret q
      | _ => raise IsADirectoryError
      end
  | None =>
      match resolve_new f p with
      | Some q => put_node q (File None) >>> ret q
      | None => raise FileNotFoundError
      end
  end.

(** [h.read()] on an open handle. *)
Definition file_read (h : list string) : M (option Table) :=
  let* f := get_fs in
  match f !! h with
  | Some (File c) => ret c
  | _ => ret None
  end.

(** [h.write(c)] on a handle opened for writing. *)
Definition file_write (h : list string) (c : option Table) : M unit :=
  put_node h (File c).

(** ** Database connections *)

(** An open connection: the file it was opened on and the image its
    statements work on. Changes reach the file at [commit]; a connection
    closed without one leaves the file as it was. *)
Record Connection := {
  conn_file : list string;
  conn_image : option Table
}.

(** [sqlite3.connect(p)]: opens the file, creating an empty one when only
    its directory exists. *)
Definition sqlite3_connect (p : ospath) : M Connection :=
  let* f := get_fs in
  match resolve f p with
  | Some q =>
      match f !! q with
      | Some (File c) => ret {| conn_file := q; conn_image := c |}
      | _ => raise (OperationalError "unable to open database file")
      end
  | None =>
      match resolve_new f p with
      | Some q =>
          put_node q (File None) >>>
          ret {| conn_file := q; conn_image := None |}
      | None => raise (OperationalError "unable to open database file")
      end
  end.

(** A statement that reads the table. *)
Definition execute_query {A} (db : Connection) (q : Table -> A) : M A :=
  match conn_image db with
  | Some t => ret (q t)
  | None => raise (OperationalError "no such table: submissions")
  end.

(** A statement that changes the table. *)
Definition execute_update (db : Connection) (u : Table -> Table)
    : M Connection :=
  match conn_image db with
  | Some t => ret {| conn_file := conn_file db; conn_image := Some (u t) |}
  | None => raise (OperationalError "no such table: submissions")
  end.

(** [CREATE TABLE IF NOT EXISTS submissions (...)]. *)
Definition create_table_if_not_exists (db : Connection) : M Connection :=
  ret {| conn_file := conn_file db;
         conn_image := Some (match conn_image db with
                             | Some t => t
                             | None => empty_table
                             end) |}.

(** [db.commit()]. *)
Definition commit (db : Connection) : M unit :=
  put_node (conn_file db) (File (conn_image db)).

(** [with closing(c) as db: body]: [close()] drops what was not
    committed, which the connection value alone held. *)
Definition with_closing {A} (c : M Connection) (body : Connection -> M A)
    : M A :=
  let* db := c in body db.

(** [needle in hay]. *)
Fixpoint contains (needle hay : string) : bool :=
  startswith needle hay
  || match hay with
     | EmptyString => false
     | String _ hay' => contains needle hay'
     end.

(** ** Requests and responses *)

(** What a template is rendered with. *)
Inductive Context :=
  | NoContext
  | DataContext (data : Data)
  | SubmissionsContext (submissions : list Row)
  | SubmissionContext (submission : Row)
  | BackupsContext (backups : list string)
  | BackupSubmissionsContext (submissions : list Row)
      (backup_filename : string).

Inductive Body :=
  | redirect (endpoint : string) (args : list (string * string))
  | render_template (template : string) (ctx : Context)
  | attachment (content : string) (filename : string).

(** A response with the messages flashed while it was produced, as
    [(message, category)]. *)
Record Response := {
  flashed : list (string * string);
  body : Body;
  status : nat
}.

Inductive Method := GET | POST.

(** [request.form.get(k, '')]. *)
Definition form_get (form : gmap string string) (k : string) : string :=
  default EmptyString (form !! k).

(** [request.form[k]]. *)
Definition form_item (form : gmap string string) (k : string) : M string :=
  match form !! k with
  | Some v => ret v
  | None => raise (BadRequestKeyError k)
  end.

(** The [data] dictionary that [preview] and [submit] build from the
    form. *)
Definition normalize (form : gmap string string) : Data :=
  {| state_code := upper (form_get form "state_code");
     corps_member_name := upper (form_get form "corps_member_name");
     sex := upper (form_get form "sex");
     bank_name := upper (form_get form "bank_name");
     account_number := upper (form_get form "account_number");
     phone_number := upper (form_get form "phone_number");
     callup_number := upper (form_get form "callup_number");
     callup_letter_name := upper (form_get form "callup_letter_name");
     account_name := upper (form_get form "account_name") |}.

(** The parameters of the [UPDATE] in [edit]: a missing key raises. *)
Definition edit_parameters (data : gmap string string) : M Data :=
  let* a := form_item data "state_code" in
  let* b := form_item data "corps_member_name" in
  let* c := form_item data "sex" in
  let* d := form_item data "bank_name" in
  let* e := form_item data "account_number" in
  let* f := form_item data "phone_number" in
  let* g := form_item data "callup_number" in
  let* h := form_item data "callup_letter_name" in
  let* i := form_item data "account_name" in
  ret {| state_code := upper a; corps_member_name := upper b;
         sex := upper c; bank_name := upper d; account_number := upper e;
         phone_number := upper f; callup_number := upper g;
         callup_letter_name := upper h; account_name := upper i |}.

(** The text of a record, as the download handlers format it. *)
Definition record_details (record : Row) : string :=
  let d := fields record in
  let nl := String (ascii_of_nat 10) EmptyString in
  "Record Details:" +:+ nl
  +:+ "ID: " +:+ pretty (id record) +:+ nl
  +:+ "State Code: " +:+ state_code d +:+ nl
  +:+ "Name: " +:+ corps_member_name d +:+ nl
  +:+ "Sex: " +:+ sex d +:+ nl
  +:+ "Bank Name: " +:+ bank_name d +:+ nl
  +:+ "Account Number: " +:+ account_number d +:+ nl
  +:+ "Phone Number: " +:+ phone_number d +:+ nl
  +:+ "Callup Number: " +:+ callup_number d +:+ nl
  +:+ "Name on Call-up Letter: " +:+ callup_letter_name d +:+ nl
  +:+ "Account Name: " +:+ account_name d +:+ nl
  +:+ "Submitted At: " +:+ submitted_at record +:+ nl.

(** ** Sample data *)

Definition sample_instance : list string := ["srv"; "nysc"; "instance"].

Definition sample_db_file : list string := sample_instance ++ ["nysc_accounts.db"].
Definition sample_backup_dir : list string := sample_instance ++ ["backups"].

Definition morning : datetime :=
  {| year := 2025; month := 3; day := 9; hour := 8; minute := 5; second := 7 |}.
Definition noon : datetime :=
  {| year := 2025; month := 3; day := 9; hour := 12; minute := 0; second := 0 |}.
Definition new_year : datetime :=
  {| year := 2026; month := 1; day := 1; hour := 0; minute := 0; second := 30 |}.

Definition ada : Row :=
  {| id := 1;
     fields := {| state_code := "LA/24A/0001"; corps_member_name := "ADA OBI";
                  sex := "FEMALE"; bank_name := "UNION";
                  account_number := "0123456789"; phone_number := "08030000001";
                  callup_number := "NYSC/ABC/2024/000001";
                  callup_letter_name := "ADA OBI"; account_name := "ADA OBI" |};
     submitted_at := "2025-03-01 10:00:00" |}.

Definition bayo : Row :=
  {| id := 2;
     fields := {| state_code := "OY/24A/0002"; corps_member_name := "BAYO ALI";
                  sex := "MALE"; bank_name := "ACCESS";
                  account_number := "2222222222"; phone_number := "08030000002";
                  callup_number := EmptyString; callup_letter_name := EmptyString;
                  account_name := EmptyString |};
     submitted_at := "2025-03-02 11:30:00" |}.

Definition two_rows : Table := {| rows := [ada; bayo]; seq := 2 |}.

Definition sample_dirs : gmap (list string) node :=
  {[ [] := Dir; ["srv"] := Dir; ["srv"; "nysc"] := Dir; sample_instance := Dir ]}.

(** The instance folder without a database file. *)
Definition world_without_database : World :=
  {| fs := sample_dirs; log := [] |}.

(** A live store with an empty table, as [init_db] leaves it. *)
Definition world_empty : World :=
  {| fs := <[sample_db_file := File (Some empty_table)]> sample_dirs; log := [] |}.

(** A live store with two records. *)
Definition world_two_rows : World :=
  {| fs := <[sample_db_file := File (Some two_rows)]> sample_dirs; log := [] |}.

(** A live store with two records and three snapshots, one of them of an
    empty table, next to a file that is not a snapshot. *)
Definition world_with_backups : World :=
  {| fs := <[sample_backup_dir ++ ["nysc_backup_2025-03-09_12-00-00.db"] :=
               File (Some two_rows)]>
           (<[sample_backup_dir ++ ["nysc_backup_2026-01-01_00-00-30.db"] :=
               File (Some two_rows)]>
           (<[sample_backup_dir ++ ["nysc_backup_2025-03-09_08-05-07.db"] :=
               File (Some empty_table)]>
           (<[sample_backup_dir ++ ["README"] := File None]>
           (<[sample_backup_dir := Dir]> (fs world_two_rows)))));
     log := [] |}.

(** A form with the nine fields, as typed: in lower case. *)
Definition form_of (account name : string) : gmap string string :=
  {[ "state_code" := "kd/24a/0003"; "corps_member_name" := name;
     "sex" := "male"; "bank_name" := "zenith";
     "account_number" := account; "phone_number" := "08030000003";
     "callup_number" := EmptyString; "callup_letter_name" := EmptyString;
     "account_name" := name ]}.

(** An instance folder in which a directory has the name of the database
    file. *)
Definition world_database_is_directory : World :=
  {| fs := <[sample_db_file := Dir]> sample_dirs; log := [] |}.

(** A form from which the field [sex] is missing. *)
Definition form_without_sex : gmap string string :=
  delete "sex" (form_of "9999999999" "bayo ali").

(** ** The application *)

Section App.

(** [app.instance_path], the canonical location of the instance folder,
    which the module creates when it is loaded. *)
Variable instance_path : list string.

Definition instance_dir : ospath := {| anchor := instance_path; comps := [] |}.

Definition DATABASE_PATH : ospath := os_path_join instance_dir "nysc_accounts.db".
Definition BACKUP_DIR : ospath := os_path_join instance_dir "backups".

(** [get_db(retries=3, delay=1)]: the loop over the attempts; the pause
    between two of them is not modelled. *)
Fixpoint get_db_attempts (remaining : nat) : M Connection :=
  match remaining with
  | O =>
      logging CRITICAL "Failed to connect to database after {retries} attempts" >>>
      raise (Exception "Failed to connect to database after 3 attempts")
  | S remaining' =>
      try_except
        (let* conn := sqlite3_connect DATABASE_PATH in
         logging DEBUG "Database connection established on attempt %d." >>>
         ret conn)
        (fun e =>
           match e with
           | OperationalError msg =>
               if contains "unable to open database file" msg then
                 logging ERROR "Database connection failed (attempt %d): %s" >>>
                 get_db_attempts remaining'
               else raise e
           | _ => raise e
           end)
  end.

Definition get_db : M Connection := get_db_attempts 3.

(** [init_db()]. *)
Definition init_db : M unit :=
  try_except
    (os_makedirs instance_dir >>>
     with_closing get_db (fun db =>
       let* db := create_table_if_not_exists db in
       commit db) >>>
     logging INFO "Database initialized successfully.")
    (fun e =>
       logging CRITICAL "Database initialization failed: %s" >>>
       raise e).

(** The name [backup_db] gives the copy taken at [now]. *)
Definition backup_file_name (now : datetime) : string :=
  "nysc_backup_" +:+ strftime_backup now +:+ ".db".

(** The [try] block of [backup_db]. *)
Definition backup_db_try (now : datetime) : M unit :=
  os_makedirs BACKUP_DIR >>>
  let timestamp := strftime_backup now in
  let backup_name :=
    os_path_join BACKUP_DIR ("nysc_backup_" +:+ timestamp +:+ ".db") in
  let* src := open_rb DATABASE_PATH in
  let* dst := open_wb backup_name in
  let* bytes := file_read src in
  file_write dst bytes >>>
  logging INFO "Database backup created successfully: %s".

(** [backup_db()]. *)
Definition backup_db (now : datetime) : M unit :=
  try_except (backup_db_try now)
    (fun e => logging ERROR "Backup failed: %s").

(** *** User routes *)

(** [preview()]. *)
Definition preview (form : gmap string string) : M Response :=
  try_except
    (let data := normalize form in
     logging DEBUG "Preview data: %s" >>>
     ret {| flashed := [];
            body := render_template "preview.html" (DataContext data);
            status := 200 |})
    (fun e =>
       logging ERROR "Error during preview: %s" >>>
       ret {| flashed := [("An error occurred during preview. Please try again.", "danger")];
              body := redirect "display_form" [];
              status := 500 |}).

(** [submit()]. The [return] inside the [with] block is the [Some] of the
    block's result. *)
Definition submit (now : datetime) (form : gmap string string) : M Response :=
  try_except
    (let data := normalize form in
     let* returned :=
       with_closing get_db (fun db =>
         let* existing :=
           execute_query db (fun t => select_by_account t (account_number data)) in
         match existing with
         | Some _ =>
             logging WARNING "Duplicate submission attempted for account number: %s" >>>
             ret (Some {| flashed := [("Error: Account number already exists!", "danger")];
                          body := redirect "display_form" [];
                          status := 302 |})
         | None =>
             let* db := execute_update db (fun t => insert_row t now data) in
             commit db >>>
             ret None
         end) in
     match returned with
     | Some response => ret response
     | None =>
         logging INFO "New registration added for %s." >>>
         ret {| flashed := [("Registration successful!", "success")];
                body := redirect "display_form" [];
                status := 302 |}
     end)
    (fun e =>
       logging ERROR "Error during submission: %s" >>>
       ret {| flashed := [("A system error occurred. Please try again later.", "danger")];
              body := redirect "display_form" [];
              status := 500 |}).

(** *** Admin routes *)

(** [admin_dashboard()]. *)
Definition admin_dashboard : M Response :=
  try_except
    (let* submissions := with_closing get_db (fun db =>
        execute_query db select_all_desc) in
     ret {| flashed := [];
            body := render_template "admin_dashboard.html"
                      (SubmissionsContext submissions);
            status := 200 |})
    (fun e =>
       logging ERROR "Error loading admin dashboard: %s" >>>
       ret {| flashed := [("Unable to load dashboard at this time.", "danger")];
              body := render_template "admin_dashboard.html" (SubmissionsContext []);
              status := 500 |}).

(** [search()]. *)
Definition search (form : gmap string string) : M Response :=
  try_except
    (let* q := form_item form "query" in
     let query := "%" +:+ q +:+ "%" in
     let* results := with_closing get_db (fun db =>
        execute_query db (fun t => select_like t query)) in
     logging INFO "Search performed with query: %s" >>>
     ret {| flashed := [];
            body := render_template "admin_dashboard.html"
                      (SubmissionsContext results);
            status := 200 |})
    (fun e =>
       logging ERROR "Error during search: %s" >>>
       ret {| flashed := [("An error occurred during the search. Please try again later.", "danger")];
              body := redirect "admin_dashboard" [];
              status := 500 |}).

(** [delete(id)]. *)
Definition delete (id : Z) : M Response :=
  try_except
    (with_closing get_db (fun db =>
       let* db := execute_update db (fun t => delete_row t id) in
       commit db) >>>
     logging INFO "Record with id %d deleted successfully." >>>
     ret {| flashed := [("Record deleted successfully!", "success")];
            body := redirect "admin_dashboard" [];
            status := 302 |})
    (fun e =>
       logging ERROR "Error deleting record with id %d: %s" >>>
       ret {| flashed := [("An error occurred while deleting the record. Please try again later.", "danger")];
              body := redirect "admin_dashboard" [];
              status := 500 |}).

(** [edit(id)]: the update on POST, the edit page on GET. *)
Definition edit (method : Method) (id : Z) (form : gmap string string)
    : M Response :=
  match method with
  | POST =>
      let data := form in
      try_except
        (with_closing get_db (fun db =>
           let* parameters := edit_parameters data in
           let* db := execute_update db (fun t => update_row t id parameters) in
           commit db) >>>
         logging INFO "Record with id %d updated successfully." >>>
         ret {| flashed := [("Update successful!", "success")];
                body := redirect "admin_dashboard" [];
                status := 302 |})
        (fun e =>
           logging ERROR "Error updating record with id %d: %s" >>>
           ret {| flashed := [("An error occurred while updating the record. Please try again later.", "danger")];
                  body := redirect "admin_dashboard" [];
                  status := 500 |})
  | GET =>
      try_except
        (let* submission := with_closing get_db (fun db =>
            execute_query db (fun t => select_by_id t id)) in
         match submission with
         | None =>
             logging WARNING "Record with id %d not found for editing." >>>
             ret {| flashed := [("Record not found.", "warning")];
                    body := redirect "admin_dashboard" [];
                    status := 404 |}
         | Some submission =>
             ret {| flashed := [];
                    body := render_template "edit.html" (SubmissionContext submission);
                    status := 200 |}
         end)
        (fun e =>
           logging ERROR "Error loading edit page for record with id %d: %s" >>>
           ret {| flashed := [("An error occurred. Please try again later.", "danger")];
                  body := redirect "admin_dashboard" [];
                  status := 500 |})
  end.

(** [sorted(names, reverse=True)] on the distinct names of a directory. *)
Definition sorted_reverse (names : list string) : list string :=
  List.rev (merge_sort String.le names).

(** [list_backups()]. *)
Definition list_backups : M Response :=
  try_except
    (let* names := os_listdir BACKUP_DIR in
     let backup_files :=
       sorted_reverse (List.filter (endswith ".db") names) in
     logging INFO "Listing %d backup files." >>>
     ret {| flashed := [];
            body := render_template "admin_backups.html" (BackupsContext backup_files);
            status := 200 |})
    (fun e =>
       logging ERROR "Error listing backups: %s" >>>
       ret {| flashed := [("An error occurred while listing backups.", "danger")];
              body := redirect "admin_dashboard" [];
              status := 500 |}).

(** [get_backup_db(backup_filename)]. *)
Definition get_backup_db (backup_filename : string) : M Connection :=
  let backup_path := os_path_join BACKUP_DIR backup_filename in
  let* found := os_path_exists backup_path in
  if negb found then raise (Exception "Backup file does not exist.")
  else sqlite3_connect backup_path.

(** [view_backup(backup_filename)]. *)
Definition view_backup (backup_filename : string) : M Response :=
  try_except
    (let* submissions := with_closing (get_backup_db backup_filename) (fun db =>
        execute_query db select_all_desc) in
     ret {| flashed := [];
            body := render_template "admin_backup_dashboard.html"
                      (BackupSubmissionsContext submissions backup_filename);
            status := 200 |})
    (fun e =>
       logging ERROR "Error viewing backup '%s': %s" >>>
       ret {| flashed := [("An error occurred while loading the backup.", "danger")];
              body := redirect "list_backups" [];
              status := 500 |}).

(** [download_backup_record(backup_filename, id)]. *)
Definition download_backup_record (backup_filename : string) (id : Z)
    : M Response :=
  try_except
    (let* record := with_closing (get_backup_db backup_filename) (fun db =>
        execute_query db (fun t => select_by_id t id)) in
     match record with
     | None =>
         ret {| flashed := [("Record not found in backup.", "warning")];
                body := redirect "view_backup" [("backup_filename", backup_filename)];
                status := 302 |}
     | Some record =>
         let content := record_details record in
         logging INFO "Backup record %d from %s downloaded successfully." >>>
         ret {| flashed := [];
                body := attachment content
                          ("backup_" +:+ backup_filename +:+ "_record_"
                           +:+ pretty id +:+ ".txt");
                status := 200 |}
     end)
    (fun e =>
       logging ERROR "Error downloading backup record %d from %s: %s" >>>
       ret {| flashed := [("An error occurred during download.", "danger")];
              body := redirect "view_backup" [("backup_filename", backup_filename)];
              status := 500 |}).

(** [download_record(id)]. *)
Definition download_record (id : Z) : M Response :=
  try_except
    (let* record := with_closing get_db (fun db =>
        execute_query db (fun t => select_by_id t id)) in
     match record with
     | None =>
         ret {| flashed := [("Record not found.", "warning")];
                body := redirect "admin_dashboard" [];
                status := 302 |}
     | Some record =>
         let content := record_details record in
         logging INFO "Record %d downloaded successfully." >>>
         ret {| flashed := [];
                body := attachment content ("record_" +:+ pretty id +:+ ".txt");
                status := 200 |}
     end)
    (fun e =>
       logging ERROR "Error downloading record %d: %s" >>>
       ret {| flashed := [("An error occurred during download.", "danger")];
              body := redirect "admin_dashboard" [];
              status := 500 |}).

(** *** The live store and the operations that change it *)

(** Canonical locations of the live database file and of the backup
    directory. *)
Definition db_file : list string := instance_path ++ ["nysc_accounts.db"].
Definition backup_dir : list string := instance_path ++ ["backups"].

(** The instance folder exists and the live file holds the table [t]. *)
Definition store_ready (w : World) (t : Table) : Prop :=
  fs w !! instance_path = Some Dir /\ fs w !! db_file = Some (File (Some t)).

(** The table in the live file, when there is one. *)
Definition live_table (w : World) : option Table :=
  match fs w !! db_file with
  | Some (File (Some t)) => Some t
  | _ => None
  end.

(** The keys [preview] and [submit] read from the form, each with the
    field of the payload it fills. *)
Definition recognized_fields : list (string * (Data -> string)) :=
  [ ("state_code", state_code);
    ("corps_member_name", corps_member_name);
    ("sex", sex);
    ("bank_name", bank_name);
    ("account_number", account_number);
    ("phone_number", phone_number);
    ("callup_number", callup_number);
    ("callup_letter_name", callup_letter_name);
    ("account_name", account_name) ].

(** [q] occurs in [s] as a literal substring, up to ASCII case. *)
Definition icontains (q s : string) : bool := contains (upper q) (upper s).

(** A file name, as opposed to a path: no [/] in it, and not one of the
    special components. *)
Definition plain_name (n : string) : bool := slash_free n && negb (is_dot n).

(** Where [backup_db] puts the copy taken at [now]. *)
Definition snapshot_file (now : datetime) : list string :=
  backup_dir ++ [backup_file_name now].

(** The requests that change the live store. *)
Inductive mutation :=
  | Submission (now : datetime) (form : gmap string string)
  | Edition (id : Z) (form : gmap string string)
  | Deletion (id : Z).

Definition handle (m : mutation) : M Response :=
  match m with
  | Submission now form => submit now form
  | Edition id form => edit POST id form
  | Deletion id => delete id
  end.

(** The world after serving the requests in order. *)
Fixpoint serve (ms : list mutation) (w : World) : World :=
  match ms with
  | [] => w
  | m :: ms' => serve ms' (snd (handle m w))
  end.

(** No two rows of the table carry the same account number. *)
Definition unique_accounts (t : Table) : Prop :=
  NoDup (List.map (fun r => account_number (fields r)) (rows t)).

(** The outcomes the handlers report. [submit] answers a duplicate with
    [duplicate_response] (the store's DuplicateError) and an insertion with
    [registered_response]; [edit] on GET answers a missing id with
    [not_found_response] (NotFoundError). *)
Definition duplicate_response : Response :=
  {| flashed := [("Error: Account number already exists!", "danger")];
     body := redirect "display_form" [];
     status := 302 |}.

Definition registered_response : Response :=
  {| flashed := [("Registration successful!", "success")];
     body := redirect "display_form" [];
     status := 302 |}.

Definition deleted_response : Response :=
  {| flashed := [("Record deleted successfully!", "success")];
     body := redirect "admin_dashboard" [];
     status := 302 |}.

Definition updated_response : Response :=
  {| flashed := [("Update successful!", "success")];
     body := redirect "admin_dashboard" [];
     status := 302 |}.

Definition not_found_response : Response :=
  {| flashed := [("Record not found.", "warning")];
     body := redirect "admin_dashboard" [];
     status := 404 |}.

(** What the handlers answer when a statement or a file operation
    raises. *)
Definition submit_error_response : Response :=
  {| flashed := [("A system error occurred. Please try again later.", "danger")];
     body := redirect "display_form" [];
     status := 500 |}.

Definition edit_error_response : Response :=
  {| flashed := [("An error occurred while updating the record. Please try again later.", "danger")];
     body := redirect "admin_dashboard" [];
     status := 500 |}.

Definition search_error_response : Response :=
  {| flashed := [("An error occurred during the search. Please try again later.", "danger")];
     body := redirect "admin_dashboard" [];
     status := 500 |}.

Definition backup_error_response : Response :=
  {| flashed := [("An error occurred while loading the backup.", "danger")];
     body := redirect "list_backups" [];
     status := 500 |}.

Definition list_backups_error_response : Response :=
  {| flashed := [("An error occurred while listing backups.", "danger")];
     body := redirect "admin_dashboard" [];
     status := 500 |}.

(** The primary key of the table: ids are distinct, positive, and none is
    above the AUTOINCREMENT counter. *)
Definition primary_key (t : Table) : Prop :=
  NoDup (List.map id (rows t)) /\
  forall r, In r (rows t) -> 1 <= id r <= seq t.

(** The database file holds no table yet: it is absent or empty. *)
Definition store_uninitialised (w : World) : Prop :=
  fs w !! instance_path = Some Dir /\
  (fs w !! db_file = None \/ fs w !! db_file = Some (File None)).

(** The database file cannot be opened: the instance folder is not
    there, or a directory has the name of the file. *)
Definition cannot_open (w : World) : Prop :=
  fs w !! instance_path <> Some Dir \/ fs w !! db_file = Some Dir.

Definition delete_error_response : Response :=
  {| flashed := [("An error occurred while deleting the record. Please try again later.", "danger")];
     body := redirect "admin_dashboard" [];
     status := 500 |}.

Definition dashboard_error_response : Response :=
  {| flashed := [("Unable to load dashboard at this time.", "danger")];
     body := render_template "admin_dashboard.html" (SubmissionsContext []);
     status := 500 |}.

(** [t] is a later state of the table [t0]: the counter has not gone
    back, and a row of [t] whose id the counter of [t0] had reached is a
    row of [t0] with that id, with its timestamp. *)
Definition later_table (t0 t : Table) : Prop :=
  seq t0 <= seq t /\
  forall r', In r' (rows t) -> id r' <= seq t0 ->
    exists r, In r (rows t0) /\ id r = id r' /\ submitted_at r = submitted_at r'.

(** ** Properties *)

Lemma DATABASE_PATH_eq :
  DATABASE_PATH = {| anchor := instance_path; comps := ["nysc_accounts.db"] |}.
Proof. reflexivity. Qed.

Lemma BACKUP_DIR_eq :
  BACKUP_DIR = {| anchor := instance_path; comps := ["backups"] |}.
Proof. reflexivity. Qed.

Lemma resolve_db_file (f : gmap (list string) node) (n : node) :
  f !! instance_path = Some Dir -> f !! db_file = Some n ->
  resolve f DATABASE_PATH = Some db_file.
Proof.
  intros Hd Hf. rewrite DATABASE_PATH_eq. unfold resolve; simpl.
  rewrite Hd. change (step instance_path "nysc_accounts.db") with db_file.
  now rewrite Hf.
Qed.

Lemma sqlite3_connect_file (p : ospath) (q : list string)
    (c : option Table) (w : World) :
  resolve (fs w) p = Some q -> fs w !! q = Some (File c) ->
  sqlite3_connect p w = (Ok {| conn_file := q; conn_image := c |}, w).
Proof.
  intros Hr Hq. unfold sqlite3_connect, bind, get_fs. cbn beta iota.
  rewrite Hr, Hq. reflexivity.
Qed.

Lemma get_db_ready (w : World) (t : Table) :
  store_ready w t ->
  get_db w =
    (Ok {| conn_file := db_file; conn_image := Some t |},
     {| fs := fs w;
        log := log w ++ [(DEBUG, "Database connection established on attempt %d.")] |}).
Proof.
  intros [Hd Hf].
  unfold get_db, get_db_attempts, try_except, bind.
  rewrite (sqlite3_connect_file _ _ _ _ (resolve_db_file _ _ Hd Hf) Hf).
  reflexivity.
Qed.

(** *** Frames of the monad *)

Section Frames.
Context {A B : Type} (keep : list string -> Prop).

Lemma frame_ret (a : A) (Q : A -> Prop) : Q a -> frame keep (ret a) Q.
Proof. intros H w. split; [reflexivity|]. simpl. now intros ? [= <-]. Qed.

Lemma frame_raise (e : exn) (Q : A -> Prop) : frame keep (raise e) Q.
Proof. intros w. split; [reflexivity|]. simpl. discriminate. Qed.

Lemma frame_bind (m : M A) (k : A -> M B) (Q : A -> Prop) (R : B -> Prop) :
  frame keep m Q -> (forall a, Q a -> frame keep (k a) R) ->
  frame keep (bind m k) R.
Proof.
  intros Hm Hk w. destruct (Hm w) as [Hfs Hq]. unfold bind.
  destruct (m w) as [[a|e] w1]; simpl in *.
  - destruct (Hk a (Hq a eq_refl) w1) as [Hfs' Hr]. split.
    + intros p Hp. now rewrite Hfs', Hfs.
    + exact Hr.
  - split; [exact Hfs|discriminate].
Qed.

Lemma frame_try (m : M A) (h : exn -> M A) (Q : A -> Prop) :
  frame keep m Q -> (forall e, frame keep (h e) Q) ->
  frame keep (try_except m h) Q.
Proof.
  intros Hm Hh w. destruct (Hm w) as [Hfs Hq]. unfold try_except.
  destruct (m w) as [[a|e] w1]; simpl in *.
  - split; [exact Hfs|exact Hq].
  - destruct (Hh e w1) as [Hfs' Hr]. split.
    + intros p Hp. now rewrite Hfs', Hfs.
    + exact Hr.
Qed.

End Frames.

Lemma frame_logging (keep : list string -> Prop) (l : level) (msg : string) :
  frame keep (logging l msg) (fun _ => True).
Proof. intros w. split; [reflexivity|trivial]. Qed.

Lemma frame_put_node (keep : list string -> Prop) (q : list string)
    (n : node) (Q : unit -> Prop) :
  ~ keep q -> Q tt -> frame keep (put_node q n) Q.
Proof.
  intros Hq H w. split; [|now intros []].
  intros p Hp. simpl. apply lookup_insert_ne. congruence.
Qed.

(** *** The table *)

Lemma select_by_account_None (t : Table) (a : string) :
  select_by_account t a = None <->
  forall r, In r (rows t) -> account_number (fields r) <> a.
Proof.
  unfold select_by_account. split.
  - intros H r Hr E.
    pose proof (find_none _ _ H r Hr) as Hn. cbv beta in Hn.
    rewrite E, String.eqb_refl in Hn. discriminate.
  - intros H. destruct (List.find _ (rows t)) as [r|] eqn:E; [|reflexivity].
    apply find_some in E as [Hr Heq]. apply String.eqb_eq in Heq.
    now destruct (H r Hr).
Qed.

Lemma max_rowid_bound (l : list Row) (r : Row) :
  In r l -> id r <= max_rowid l.
Proof.
  induction l as [|x l IH]; simpl; [tauto|].
  intros [->|H]; [lia|]. specialize (IH H). lia.
Qed.

Lemma next_rowid_above_rows (t : Table) (r : Row) :
  In r (rows t) -> id r < next_rowid t.
Proof.
  intros H. apply max_rowid_bound in H. unfold next_rowid. lia.
Qed.

Lemma next_rowid_above_seq (t : Table) : seq t < next_rowid t.
Proof. unfold next_rowid. lia. Qed.

Lemma select_by_id_Some (t : Table) (i : Z) (r : Row) :
  select_by_id t i = Some r -> In r (rows t) /\ id r = i.
Proof.
  unfold select_by_id. intros H. apply find_some in H as [Hr Heq].
  split; [exact Hr|]. now apply Z.eqb_eq.
Qed.

Lemma select_by_id_None (t : Table) (i : Z) :
  select_by_id t i = None <-> forall r, In r (rows t) -> id r <> i.
Proof.
  unfold select_by_id. split.
  - intros H r Hr E.
    pose proof (find_none _ _ H r Hr) as Hn. cbv beta in Hn.
    apply Z.eqb_neq in Hn. contradiction.
  - intros H. destruct (List.find _ (rows t)) as [r|] eqn:E; [|reflexivity].
    apply find_some in E as [Hr Heq]. apply Z.eqb_eq in Heq.
    now destruct (H r Hr).
Qed.

Lemma delete_row_In (t : Table) (i : Z) (r : Row) :
  In r (rows (delete_row t i)) <-> In r (rows t) /\ id r <> i.
Proof.
  unfold delete_row; simpl. rewrite filter_In.
  rewrite negb_true_iff, Z.eqb_neq. reflexivity.
Qed.

Lemma delete_row_absent (t : Table) (i : Z) :
  (forall r, In r (rows t) -> id r <> i) -> delete_row t i = t.
Proof.
  intros H. destruct t as [l s]. unfold delete_row; simpl in *. f_equal.
  induction l as [|x l IH]; simpl; [reflexivity|].
  assert (Hx : id x <> i) by (apply H; now left).
  apply Z.eqb_neq in Hx. rewrite Hx. simpl. f_equal.
  apply IH. intros r Hr. apply H. now right.
Qed.

Lemma update_row_keys (t : Table) (i : Z) (d : Data) :
  List.map (fun r => (id r, submitted_at r)) (rows (update_row t i d)) =
  List.map (fun r => (id r, submitted_at r)) (rows t).
Proof.
  unfold update_row; simpl. rewrite List.map_map. apply List.map_ext.
  intros r. now destruct (id r =? i)%Z.
Qed.

Lemma select_by_id_update (t : Table) (i j : Z) (d : Data) :
  select_by_id (update_row t i d) j =
  match select_by_id t j with
  | Some r => Some (if (id r =? i)%Z
                    then {| id := id r; fields := d; submitted_at := submitted_at r |}
                    else r)
  | None => None
  end.
Proof.
  unfold select_by_id, update_row; simpl.
  induction (rows t) as [|x l IH]; simpl; [reflexivity|].
  destruct (id x =? i)%Z eqn:Ei; simpl; destruct (id x =? j)%Z eqn:Ej;
    try rewrite Ei; try reflexivity; exact IH.
Qed.

Lemma insert_desc_Permutation (r : Row) (l : list Row) :
  Permutation (insert_desc r l) (r :: l).
Proof.
  induction l as [|x l IH]; simpl; [reflexivity|].
  destruct (String.leb _ _); [reflexivity|].
  rewrite IH. apply perm_swap.
Qed.

Lemma select_all_desc_Permutation (t : Table) :
  Permutation (select_all_desc t) (rows t).
Proof.
  unfold select_all_desc, order_by_submitted_at_desc.
  induction (rows t) as [|x l IH]; simpl; [reflexivity|].
  rewrite insert_desc_Permutation. now constructor.
Qed.

Lemma insert_desc_sorted (r : Row) (l : list Row) :
  StronglySorted (fun a b => String.le (submitted_at b) (submitted_at a)) l ->
  StronglySorted (fun a b => String.le (submitted_at b) (submitted_at a))
    (insert_desc r l).
Proof.
  induction 1 as [|x l Hl IH Hx]; simpl; [repeat constructor|].
  destruct (String.leb (submitted_at x) (submitted_at r)) eqn:E.
  - constructor; [now constructor|]. constructor.
    + unfold String.le. now rewrite E.
    + eapply List.Forall_impl; [|exact Hx]. intros y Hy. cbv beta in Hy.
      transitivity (submitted_at x); [exact Hy|].
      unfold String.le. now rewrite E.
  - constructor; [exact IH|].
    rewrite (insert_desc_Permutation r l). constructor; [|exact Hx].
    destruct (total String.le (submitted_at r) (submitted_at x)) as [H|H];
      [exact H|].
    unfold String.le in H. now rewrite E in H.
Qed.

(** The dashboard order is descending in [submitted_at]. *)
Lemma select_all_desc_sorted (t : Table) :
  StronglySorted (fun a b => String.le (submitted_at b) (submitted_at a))
    (select_all_desc t).
Proof.
  unfold select_all_desc, order_by_submitted_at_desc.
  induction (rows t) as [|x l IH]; simpl; [constructor|].
  now apply insert_desc_sorted.
Qed.

Lemma select_all_desc_In (t : Table) (r : Row) :
  In r (select_all_desc t) <-> In r (rows t).
Proof.
  split; apply Permutation_in;
    [|symmetry]; apply select_all_desc_Permutation.
Qed.

(** The three statements that change the table, against the uniqueness of
    account numbers: [INSERT] after the duplicate check and [DELETE] keep
    it. *)
Lemma insert_row_unique (t : Table) (now : datetime) (d : Data) :
  unique_accounts t ->
  select_by_account t (account_number d) = None ->
  unique_accounts (insert_row t now d).
Proof.
  unfold unique_accounts, insert_row; simpl. intros Hu Hn.
  rewrite List.map_app; simpl.
  apply NoDup_app. split; [exact Hu|]. split.
  - intros a Ha Hd. apply list_elem_of_In in Ha, Hd. destruct Hd as [<-|[]].
    apply in_map_iff in Ha as (r & Hr & Hin).
    rewrite select_by_account_None in Hn. exact (Hn r Hin Hr).
  - apply NoDup_singleton.
Qed.

Lemma NoDup_map_filter {A B} (f : A -> B) (p : A -> bool) (l : list A) :
  NoDup (List.map f l) -> NoDup (List.map f (List.filter p l)).
Proof.
  induction l as [|x l IH]; simpl; [trivial|].
  intros H. apply NoDup_cons in H as [Hx Hl].
  destruct (p x); simpl; [|auto].
  apply NoDup_cons. split; [|auto].
  rewrite list_elem_of_In in Hx |- *. intros Hin. apply Hx. apply in_map_iff in Hin as (y & Hy & Hiny).
  apply filter_In in Hiny as [Hiny _]. apply in_map_iff. eauto.
Qed.

Lemma delete_row_unique (t : Table) (i : Z) :
  unique_accounts t -> unique_accounts (delete_row t i).
Proof. unfold unique_accounts, delete_row; simpl. apply NoDup_map_filter. Qed.

(** *** What each handler does on a ready store *)

Lemma submit_duplicate (now : datetime) (form : gmap string string)
    (w : World) (t : Table) (r : Row) :
  store_ready w t ->
  select_by_account t (account_number (normalize form)) = Some r ->
  submit now form w =
    (Ok duplicate_response,
     {| fs := fs w;
        log := (log w ++ [(DEBUG, "Database connection established on attempt %d.")])
                     ++ [(WARNING, "Duplicate submission attempted for account number: %s")] |}).
Proof.
  intros Hw Hsel. unfold submit, with_closing, try_except, bind. cbv beta zeta.
  rewrite (get_db_ready _ _ Hw). unfold execute_query, ret; cbn beta iota.
  cbn [conn_image]. rewrite Hsel. reflexivity.
Qed.

Lemma submit_fresh (now : datetime) (form : gmap string string)
    (w : World) (t : Table) :
  store_ready w t ->
  select_by_account t (account_number (normalize form)) = None ->
  submit now form w =
    (Ok registered_response,
     {| fs := <[db_file := File (Some (insert_row t now (normalize form)))]> (fs w);
        log := (log w ++ [(DEBUG, "Database connection established on attempt %d.")])
                     ++ [(INFO, "New registration added for %s.")] |}).
Proof.
  intros Hw Hsel. unfold submit, with_closing, try_except, bind. cbv beta zeta.
  rewrite (get_db_ready _ _ Hw). unfold execute_query, ret; cbn beta iota.
  cbn [conn_image]. rewrite Hsel. reflexivity.
Qed.

Lemma delete_ready (i : Z) (w : World) (t : Table) :
  store_ready w t ->
  delete i w =
    (Ok deleted_response,
     {| fs := <[db_file := File (Some (delete_row t i))]> (fs w);
        log := (log w ++ [(DEBUG, "Database connection established on attempt %d.")])
                     ++ [(INFO, "Record with id %d deleted successfully.")] |}).
Proof.
  intros Hw. unfold delete, with_closing, try_except, bind. cbv beta zeta.
  rewrite (get_db_ready _ _ Hw). reflexivity.
Qed.

Lemma edit_get_ready (i : Z) (form : gmap string string) (w : World) (t : Table) :
  store_ready w t ->
  fst (edit GET i form w) =
    Ok (match select_by_id t i with
        | None => not_found_response
        | Some r => {| flashed := [];
                       body := render_template "edit.html" (SubmissionContext r);
                       status := 200 |}
        end).
Proof.
  intros Hw. unfold edit, with_closing, try_except, bind. cbv beta zeta.
  rewrite (get_db_ready _ _ Hw). unfold execute_query, ret; cbn beta iota.
  cbn [conn_image]. destruct (select_by_id t i); reflexivity.
Qed.

Lemma admin_dashboard_ready (w : World) (t : Table) :
  store_ready w t ->
  fst (admin_dashboard w) =
    Ok {| flashed := [];
          body := render_template "admin_dashboard.html"
                    (SubmissionsContext (select_all_desc t));
          status := 200 |}.
Proof.
  intros Hw. unfold admin_dashboard, with_closing, try_except, bind. cbv beta zeta.
  rewrite (get_db_ready _ _ Hw). reflexivity.
Qed.

Lemma store_ready_insert (w : World) (t t' : Table) (l : list (level * string)) :
  store_ready w t ->
  store_ready {| fs := <[db_file := File (Some t')]> (fs w); log := l |} t'.
Proof.
  intros [Hd Hf]. split; simpl.
  - rewrite lookup_insert_ne; [exact Hd|].
    unfold db_file. intros E. apply (f_equal length) in E.
    rewrite length_app in E. simpl in E. lia.
  - apply lookup_insert_eq.
Qed.

Lemma store_ready_same_fs (w w' : World) (t : Table) :
  fs w' = fs w -> store_ready w t -> store_ready w' t.
Proof. unfold store_ready. now intros ->. Qed.

Lemma db_file_not_instance : instance_path <> db_file.
Proof.
  unfold db_file. intros E. apply (f_equal length) in E.
  rewrite length_app in E. simpl in E. lia.
Qed.

(** The form lookups of [edit] read no state. *)
Lemma form_item_pure (form : gmap string string) (k : string) (w : World) :
  form_item form k w =
    (match form !! k with Some v => Ok v | None => Raise (BadRequestKeyError k) end, w).
Proof. unfold form_item. now destruct (form !! k). Qed.

Lemma edit_parameters_pure (form : gmap string string) (w : World) :
  exists r, forall w', edit_parameters form w' = (r, w').
Proof.
  unfold edit_parameters, bind.
  repeat (setoid_rewrite form_item_pure;
          match goal with
          | |- context [form !! ?k] => destruct (form !! k)
          end; [|eexists; intros; reflexivity]).
  eexists; intros; reflexivity.
Qed.

Lemma edit_post_ready (i : Z) (form : gmap string string) (w : World)
    (t : Table) (d : Data) :
  store_ready w t ->
  (forall w', edit_parameters form w' = (Ok d, w')) ->
  edit POST i form w =
    (Ok updated_response,
     {| fs := <[db_file := File (Some (update_row t i d))]> (fs w);
        log := (log w ++ [(DEBUG, "Database connection established on attempt %d.")])
                     ++ [(INFO, "Record with id %d updated successfully.")] |}).
Proof.
  intros Hw Hp. unfold edit, with_closing, try_except, bind. cbv beta zeta.
  rewrite (get_db_ready _ _ Hw), Hp. reflexivity.
Qed.

Lemma edit_post_bad_request (i : Z) (form : gmap string string) (w : World)
    (t : Table) (e : exn) :
  store_ready w t ->
  (forall w', edit_parameters form w' = (Raise e, w')) ->
  fs (snd (edit POST i form w)) = fs w /\ status <$> fst_ok (edit POST i form w) = Some 500%nat.
Proof.
  intros Hw Hp. unfold edit, with_closing, try_except, bind. cbv beta zeta.
  rewrite (get_db_ready _ _ Hw), Hp. split; reflexivity.
Qed.

(** *** Insertion *)

(** C2 (as amended): on a ready store, [submit] of a payload whose
    normalized account number some row already carries answers with the
    duplicate error and leaves every file as it was; otherwise it appends
    exactly one row, whose id is larger than every id the table holds or
    has handed out, whose timestamp is the current one and whose nine
    fields are the normalized payload, changes no other file, and answers
    with the success message and a redirect to the form. *)
Theorem submit_rejects_duplicate_or_appends_row (now : datetime)
    (form : gmap string string) (w : World) (t : Table) :
  store_ready w t ->
  ((exists r, In r (rows t) /\
              account_number (fields r) = account_number (normalize form)) ->
   fst (submit now form w) = Ok duplicate_response /\
   fs (snd (submit now form w)) = fs w)
  /\
  ((forall r, In r (rows t) ->
              account_number (fields r) <> account_number (normalize form)) ->
   exists r,
     fst (submit now form w) = Ok registered_response /\
     store_ready (snd (submit now form w))
       {| rows := rows t ++ [r]; seq := id r |} /\
     (forall p, p <> db_file -> fs (snd (submit now form w)) !! p = fs w !! p) /\
     fields r = normalize form /\
     submitted_at r = CURRENT_TIMESTAMP now /\
     (forall r0, In r0 (rows t) -> id r0 < id r) /\
     seq t < id r).
Proof.
  intros Hw. split.
  - intros (r & Hr & Ha).
    destruct (select_by_account t (account_number (normalize form))) as [r'|] eqn:E.
    + rewrite (submit_duplicate _ _ _ _ _ Hw E). now split.
    + rewrite select_by_account_None in E. now destruct (E r Hr).
  - intros Hn. apply select_by_account_None in Hn.
    rewrite (submit_fresh _ _ _ _ Hw Hn).
    eexists {| id := next_rowid t; fields := normalize form;
               submitted_at := CURRENT_TIMESTAMP now |}.
    repeat split; simpl.
    + rewrite lookup_insert_ne; [apply Hw|apply not_eq_sym, db_file_not_instance].
    + apply lookup_insert_eq.
    + intros p Hp. now rewrite lookup_insert_ne.
    + intros r0. apply next_rowid_above_rows.
    + apply next_rowid_above_seq.
Qed.

(** *** Editing *)

(** C4: on a ready store, whatever the form holds, [edit] on POST leaves
    the [id] and [submitted_at] columns of the whole table as they were;
    the record with the edited id is still found under that id with the
    same [submitted_at], and a record with another id is found
    unchanged. *)
Theorem edit_keeps_id_and_submitted_at (i : Z) (form : gmap string string)
    (w : World) (t : Table) :
  store_ready w t ->
  exists t',
    store_ready (snd (edit POST i form w)) t' /\
    List.map (fun r => (id r, submitted_at r)) (rows t') =
      List.map (fun r => (id r, submitted_at r)) (rows t) /\
    (forall r, select_by_id t i = Some r ->
       exists r', select_by_id t' i = Some r' /\
                  id r' = id r /\ submitted_at r' = submitted_at r) /\
    (forall j, j <> i -> select_by_id t' j = select_by_id t j).
Proof.
  intros Hw. destruct (edit_parameters_pure form w) as [[d|e] Hp].
  - rewrite (edit_post_ready _ _ _ _ _ Hw Hp). exists (update_row t i d).
    split; [exact (store_ready_insert _ _ _ _ Hw)|].
    split; [apply update_row_keys|]. split.
    + intros r Hr. rewrite select_by_id_update, Hr.
      apply select_by_id_Some in Hr as [_ Hid]. apply Z.eqb_eq in Hid.
      rewrite Hid. eexists; split; [reflexivity|]. now split.
    + intros j Hj. rewrite select_by_id_update.
      destruct (select_by_id t j) as [r|] eqn:E; [|reflexivity].
      apply select_by_id_Some in E as [_ Hid].
      assert (Hne : id r <> i) by congruence.
      apply Z.eqb_neq in Hne. now rewrite Hne.
  - destruct (edit_post_bad_request i _ _ _ _ Hw Hp) as [Hfs _].
    exists t. split; [exact (store_ready_same_fs _ _ _ Hfs Hw)|].
    split; [reflexivity|]. split; [|reflexivity].
    intros r Hr. exists r. now repeat split.
Qed.

(** *** Deletion *)

(** C5 (as amended): on a ready store [delete] answers every id sqlite3
    can bind (a non-negative id below [2^63]) with the success message,
    also an id no record has, in which case the table is left as it was. In
    both cases the table afterwards is the old one without the rows of that
    id: the edit page of the id answers "not found", and the dashboard
    lists exactly the old records with another id. *)
Theorem delete_removes_and_reports_success (i : Z) (w : World) (t : Table) :
  bindable i ->
  store_ready w t ->
  fst (delete i w) = Ok deleted_response /\
  store_ready (snd (delete i w)) (delete_row t i) /\
  ((forall r, In r (rows t) -> id r <> i) ->
   delete_row t i = t /\ fs (snd (delete i w)) = fs w) /\
  rows (delete_row t i) = List.filter (fun r => negb (id r =? i)%Z) (rows t) /\
  fst (edit GET i ∅ (snd (delete i w))) = Ok not_found_response /\
  (exists listed,
     fst (admin_dashboard (snd (delete i w))) =
       Ok {| flashed := [];
             body := render_template "admin_dashboard.html"
                       (SubmissionsContext listed);
             status := 200 |} /\
     forall r, In r listed <-> In r (rows t) /\ id r <> i).
Proof.
  intros _ Hw. rewrite (delete_ready _ _ _ Hw). cbn [fst snd].
  assert (Hw' : store_ready
            {| fs := <[db_file := File (Some (delete_row t i))]> (fs w);
               log := (log w ++ [(DEBUG, "Database connection established on attempt %d.")])
                      ++ [(INFO, "Record with id %d deleted successfully.")] |}
            (delete_row t i)) by exact (store_ready_insert _ _ _ _ Hw).
  split; [reflexivity|]. split; [exact Hw'|]. split.
  { intros Hno. rewrite (delete_row_absent _ _ Hno). split; [reflexivity|].
    apply insert_id, Hw. }
  split; [reflexivity|]. split.
  - rewrite (edit_get_ready _ _ _ _ Hw').
    assert (E : select_by_id (delete_row t i) i = None).
    { apply select_by_id_None. intros r Hr. now apply delete_row_In in Hr. }
    now rewrite E.
  - exists (select_all_desc (delete_row t i)).
    split; [exact (admin_dashboard_ready _ _ Hw')|].
    intros r. rewrite select_all_desc_In. apply delete_row_In.
Qed.

(** *** Which files the handlers touch *)

Lemma resolve_DATABASE_PATH (f : gmap (list string) node) (q : list string) :
  resolve f DATABASE_PATH = Some q -> q = db_file.
Proof.
  rewrite DATABASE_PATH_eq. unfold resolve; simpl.
  destruct (f !! instance_path) as [[|]|]; try discriminate.
  change (step instance_path "nysc_accounts.db") with db_file.
  destruct (f !! db_file); [now intros [= <-]|discriminate].
Qed.

Lemma resolve_new_DATABASE_PATH (f : gmap (list string) node) (q : list string) :
  resolve_new f DATABASE_PATH = Some q -> q = db_file.
Proof.
  rewrite DATABASE_PATH_eq. unfold resolve_new; simpl.
  destruct (f !! instance_path) as [n|] eqn:E; [|discriminate].
  rewrite E. destruct n; [|discriminate].
  fold db_file. destruct (f !! db_file); [discriminate|now intros [= <-]].
Qed.

Lemma frame_sqlite3_connect (keep : list string -> Prop) (p : ospath)
    (Q : list string -> Prop) :
  (forall f q, resolve f p = Some q -> Q q) ->
  (forall f q, resolve_new f p = Some q -> Q q /\ ~ keep q) ->
  frame keep (sqlite3_connect p) (fun c => Q (conn_file c)).
Proof.
  intros Hr Hn w. unfold sqlite3_connect, bind, get_fs. cbv beta iota.
  destruct (resolve (fs w) p) as [q|] eqn:Er.
  - destruct (fs w !! q) as [[|c]|]; simpl; (split; [reflexivity|]);
      try discriminate.
    intros a [= <-]. simpl. eauto.
  - destruct (resolve_new (fs w) p) as [q|] eqn:En; simpl.
    + destruct (Hn _ _ En) as [HQ Hk]. split.
      * intros p' Hp'. apply lookup_insert_ne. congruence.
      * now intros a [= <-].
    + split; [reflexivity|discriminate].
Qed.

Lemma frame_get_db_attempts (n : nat) :
  frame (fun p => p <> db_file) (get_db_attempts n)
    (fun c => conn_file c = db_file).
Proof.
  induction n as [|n IH]; simpl.
  - eapply frame_bind; [apply frame_logging|].
    intros _ _. apply frame_raise.
  - apply frame_try.
    + eapply frame_bind.
      * apply (frame_sqlite3_connect _ _ (fun q => q = db_file)).
        -- apply resolve_DATABASE_PATH.
        -- intros f q H. apply resolve_new_DATABASE_PATH in H. auto.
      * intros c Hc. eapply frame_bind; [apply frame_logging|].
        intros _ _. now apply frame_ret.
    + intros [msg| | | | | |];
        try (destruct (contains _ msg)); try apply frame_raise.
      eapply frame_bind; [apply frame_logging|]. intros _ _. exact IH.
Qed.

Lemma frame_execute_query {T} (keep : list string -> Prop) (db : Connection)
    (q : Table -> T) :
  frame keep (execute_query db q) (fun _ => True).
Proof.
  unfold execute_query. destruct (conn_image db);
    [now apply frame_ret|apply frame_raise].
Qed.

Lemma frame_execute_update (keep : list string -> Prop) (db : Connection)
    (u : Table -> Table) :
  frame keep (execute_update db u) (fun c => conn_file c = conn_file db).
Proof.
  unfold execute_update. destruct (conn_image db);
    [now apply frame_ret|apply frame_raise].
Qed.

Lemma frame_commit (db : Connection) :
  conn_file db = db_file ->
  frame (fun p => p <> db_file) (commit db) (fun _ => True).
Proof. intros H. unfold commit. apply frame_put_node; [rewrite H|]; tauto. Qed.

Lemma frame_form_item (keep : list string -> Prop) (form : gmap string string)
    (k : string) :
  frame keep (form_item form k) (fun _ => True).
Proof.
  unfold form_item. destruct (form !! k); [now apply frame_ret|apply frame_raise].
Qed.

Lemma frame_edit_parameters (keep : list string -> Prop)
    (form : gmap string string) :
  frame keep (edit_parameters form) (fun _ => True).
Proof.
  unfold edit_parameters.
  repeat (eapply frame_bind; [apply frame_form_item|]; intros ? _).
  now apply frame_ret.
Qed.

Ltac frame_log_ret :=
  repeat (eapply frame_bind; [apply frame_logging|]; intros _ _);
  now apply frame_ret.

(** The three handlers that change the store write the live database file
    and nothing else. *)
Lemma frame_submit (now : datetime) (form : gmap string string) :
  frame (fun p => p <> db_file) (submit now form) (fun _ => True).
Proof.
  unfold submit, with_closing. apply frame_try; [|intros e; frame_log_ret].
  eapply frame_bind.
  - eapply frame_bind; [apply frame_get_db_attempts|]. intros db Hdb.
    eapply frame_bind; [apply frame_execute_query|]. intros [r|] _.
    + eapply frame_bind; [apply frame_logging|]. intros _ _.
      now apply (frame_ret _ _ (fun _ => True)).
    + eapply frame_bind; [apply frame_execute_update|]. intros db' Hdb'.
      eapply frame_bind; [apply frame_commit; congruence|]. intros _ _.
      now apply frame_ret.
  - intros [r|] _; [now apply frame_ret|frame_log_ret].
Qed.

Lemma frame_delete (i : Z) :
  frame (fun p => p <> db_file) (delete i) (fun _ => True).
Proof.
  unfold delete, with_closing. apply frame_try; [|intros e; frame_log_ret].
  eapply frame_bind; [|intros _ _; frame_log_ret].
  eapply frame_bind; [apply frame_get_db_attempts|]. intros db Hdb.
  eapply frame_bind; [apply frame_execute_update|]. intros db' Hdb'.
  apply frame_commit. congruence.
Qed.

Lemma frame_edit_post (i : Z) (form : gmap string string) :
  frame (fun p => p <> db_file) (edit POST i form) (fun _ => True).
Proof.
  unfold edit, with_closing. apply frame_try; [|intros e; frame_log_ret].
  eapply frame_bind; [|intros _ _; frame_log_ret].
  eapply frame_bind; [apply frame_get_db_attempts|]. intros db Hdb.
  eapply frame_bind; [apply frame_edit_parameters|]. intros d _.
  eapply frame_bind; [apply frame_execute_update|]. intros db' Hdb'.
  apply frame_commit. congruence.
Qed.

Lemma serve_frame (ms : list mutation) (w : World) (p : list string) :
  p <> db_file -> fs (serve ms w) !! p = fs w !! p.
Proof.
  intros Hp. revert w. induction ms as [|m ms IH]; intros w; simpl;
    [reflexivity|].
  rewrite IH. destruct m as [now form|i form|i]; simpl.
  - now apply frame_submit.
  - now apply frame_edit_post.
  - now apply frame_delete.
Qed.

(** *** Names and paths *)

Lemma slash_free_append (a b : string) :
  slash_free (a +:+ b) = slash_free a && slash_free b.
Proof.
  induction a as [|c a IH]; simpl; [reflexivity|].
  rewrite IH. now rewrite andb_assoc.
Qed.

Lemma digit_not_slash (d : nat) : (d < 10)%nat -> Ascii.eqb (digit d) "/" = false.
Proof.
  intros H. do 10 (destruct d as [|d]; [reflexivity|]). lia.
Qed.

Lemma slash_free_zpad (w n : nat) : slash_free (zpad w n) = true.
Proof.
  induction w as [|w IH]; [reflexivity|].
  cbn [zpad slash_free]. rewrite IH, digit_not_slash; [reflexivity|].
  apply Nat.mod_upper_bound. lia.
Qed.

Lemma slash_free_backup_file_name (now : datetime) :
  slash_free (backup_file_name now) = true.
Proof.
  unfold backup_file_name, strftime_backup.
  repeat (rewrite slash_free_append || rewrite slash_free_zpad). reflexivity.
Qed.

Lemma plain_backup_file_name (now : datetime) :
  plain_name (backup_file_name now) = true.
Proof.
  unfold plain_name. rewrite slash_free_backup_file_name. reflexivity.
Qed.

Lemma split_slash_free (s : string) : slash_free s = true -> split_slash s = [s].
Proof.
  induction s as [|c s IH]; simpl; [reflexivity|].
  destruct (Ascii.eqb c "/"); simpl; [discriminate|].
  intros H. now rewrite (IH H).
Qed.

Lemma startswith_slash_free (s : string) :
  slash_free s = true -> startswith "/" s = false.
Proof.
  destruct s as [|c s]; [reflexivity|].
  cbn [startswith slash_free]. destruct (Ascii.eqb_spec c "/") as [->|Hc].
  - discriminate.
  - intros _. assert (E : Ascii.eqb "/" c = false)
      by (apply Ascii.eqb_neq; congruence).
    now rewrite E.
Qed.

Lemma join_backup_plain (n : string) :
  plain_name n = true ->
  os_path_join BACKUP_DIR n =
    {| anchor := instance_path; comps := ["backups"; n] |}.
Proof.
  unfold plain_name. intros H. apply andb_true_iff in H as [Hs _].
  unfold os_path_join.
  now rewrite (startswith_slash_free _ Hs), (split_slash_free _ Hs).
Qed.

Lemma step_plain (cur : list string) (n : string) :
  plain_name n = true -> step cur n = cur ++ [n].
Proof.
  unfold plain_name, is_dot, step. intros H.
  apply andb_true_iff in H as [_ H]. apply negb_true_iff in H.
  apply orb_false_iff in H as [H ->]. now rewrite H.
Qed.

Lemma resolve_backup_plain (f : gmap (list string) node) (n : string) :
  plain_name n = true ->
  f !! instance_path = Some Dir -> f !! backup_dir = Some Dir ->
  resolve f (os_path_join BACKUP_DIR n) =
    match f !! (backup_dir ++ [n]) with
    | Some _ => Some (backup_dir ++ [n])
    | None => None
    end.
Proof.
  intros Hn Hi Hb. rewrite (join_backup_plain _ Hn). unfold resolve; simpl.
  rewrite Hi. change (step instance_path "backups") with backup_dir.
  now rewrite Hb, (step_plain _ _ Hn).
Qed.

Lemma backup_dir_not_db_file : backup_dir <> db_file.
Proof. unfold backup_dir, db_file. intros E. now apply app_inv_head in E. Qed.

Lemma backup_dir_not_instance : backup_dir <> instance_path.
Proof.
  unfold backup_dir. intros E. apply (f_equal length) in E.
  rewrite length_app in E. simpl in E. lia.
Qed.

Lemma backup_entry_not_db_file (n : string) : backup_dir ++ [n] <> db_file.
Proof.
  unfold backup_dir, db_file. intros E. apply (f_equal length) in E.
  rewrite !length_app in E. simpl in E. lia.
Qed.

Lemma backup_entry_not_instance (n : string) : backup_dir ++ [n] <> instance_path.
Proof.
  unfold backup_dir. intros E. apply (f_equal length) in E.
  rewrite !length_app in E. simpl in E. lia.
Qed.

Lemma backup_entry_not_backup_dir (n : string) : backup_dir ++ [n] <> backup_dir.
Proof.
  intros E. apply (f_equal length) in E.
  rewrite !length_app in E. simpl in E. lia.
Qed.

(** *** Reading a snapshot *)

Lemma get_backup_db_entry (n : string) (w : World) (c : option Table) :
  plain_name n = true ->
  fs w !! instance_path = Some Dir -> fs w !! backup_dir = Some Dir ->
  fs w !! (backup_dir ++ [n]) = Some (File c) ->
  get_backup_db n w =
    (Ok {| conn_file := backup_dir ++ [n]; conn_image := c |}, w).
Proof.
  intros Hn Hi Hb Hf.
  assert (Hr : resolve (fs w) (os_path_join BACKUP_DIR n) = Some (backup_dir ++ [n]))
    by now rewrite (resolve_backup_plain _ _ Hn Hi Hb), Hf.
  unfold get_backup_db, os_path_exists, bind, get_fs. cbv beta zeta iota.
  rewrite Hr. cbn [ret negb]. cbv iota.
  exact (sqlite3_connect_file _ _ _ _ Hr Hf).
Qed.

Lemma view_backup_entry (n : string) (w : World) (t : Table) :
  plain_name n = true ->
  fs w !! instance_path = Some Dir -> fs w !! backup_dir = Some Dir ->
  fs w !! (backup_dir ++ [n]) = Some (File (Some t)) ->
  fst (view_backup n w) =
    Ok {| flashed := [];
          body := render_template "admin_backup_dashboard.html"
                    (BackupSubmissionsContext (select_all_desc t) n);
          status := 200 |}.
Proof.
  intros Hn Hi Hb Hf. unfold view_backup, with_closing, try_except, bind.
  now rewrite (get_backup_db_entry _ _ _ Hn Hi Hb Hf).
Qed.

Lemma download_backup_record_entry (n : string) (i : Z) (w : World) (t : Table) :
  plain_name n = true ->
  fs w !! instance_path = Some Dir -> fs w !! backup_dir = Some Dir ->
  fs w !! (backup_dir ++ [n]) = Some (File (Some t)) ->
  fst (download_backup_record n i w) =
    Ok (match select_by_id t i with
        | None =>
            {| flashed := [("Record not found in backup.", "warning")];
               body := redirect "view_backup" [("backup_filename", n)];
               status := 302 |}
        | Some record =>
            {| flashed := [];
               body := attachment (record_details record)
                         ("backup_" +:+ n +:+ "_record_" +:+ pretty i +:+ ".txt");
               status := 200 |}
        end).
Proof.
  intros Hn Hi Hb Hf.
  unfold download_backup_record, with_closing, try_except, bind.
  rewrite (get_backup_db_entry _ _ _ Hn Hi Hb Hf).
  unfold execute_query; cbn [conn_image ret].
  now destruct (select_by_id t i).
Qed.

(** *** Taking a snapshot *)

Lemma os_makedirs_backup (w : World) :
  fs w !! instance_path = Some Dir ->
  (forall c, fs w !! backup_dir <> Some (File c)) ->
  exists f,
    os_makedirs BACKUP_DIR w = (Ok tt, {| fs := f; log := log w |}) /\
    f !! backup_dir = Some Dir /\
    forall p, p <> backup_dir -> f !! p = fs w !! p.
Proof.
  intros Hi Hb. rewrite BACKUP_DIR_eq.
  unfold os_makedirs, makedirs_go, bind, get_fs. cbn [comps anchor].
  cbv beta iota. rewrite Hi.
  change (step instance_path "backups") with backup_dir.
  destruct (fs w !! backup_dir) as [[|c]|] eqn:E.
  - exists (fs w). destruct w. now repeat split.
  - now destruct (Hb c).
  - exists (<[backup_dir := Dir]> (fs w)). split; [reflexivity|].
    split; [apply lookup_insert_eq|].
    intros p Hp. now apply lookup_insert_ne.
Qed.

Lemma open_rb_db_file (w : World) (c : option Table) :
  fs w !! instance_path = Some Dir -> fs w !! db_file = Some (File c) ->
  open_rb DATABASE_PATH w = (Ok db_file, w).
Proof.
  intros Hi Hf. unfold open_rb, bind, get_fs. cbv beta iota.
  now rewrite (resolve_db_file _ _ Hi Hf), Hf.
Qed.

Lemma resolve_new_backup_plain (f : gmap (list string) node) (n : string) :
  plain_name n = true ->
  f !! instance_path = Some Dir -> f !! backup_dir = Some Dir ->
  f !! (backup_dir ++ [n]) = None ->
  resolve_new f (os_path_join BACKUP_DIR n) = Some (backup_dir ++ [n]).
Proof.
  intros Hn Hi Hb Hf. rewrite (join_backup_plain _ Hn).
  unfold resolve_new. cbn [comps anchor List.rev app].
  assert (Hd : is_dot n = false).
  { unfold plain_name in Hn. apply andb_true_iff in Hn as [_ Hn].
    now apply negb_true_iff in Hn. }
  rewrite Hd. cbn [walk]. rewrite Hi.
  change (step instance_path "backups") with backup_dir.
  rewrite Hb. cbv beta iota. now rewrite Hb, Hf.
Qed.

Lemma open_wb_backup_entry (n : string) (w : World) :
  plain_name n = true ->
  fs w !! instance_path = Some Dir -> fs w !! backup_dir = Some Dir ->
  fs w !! (backup_dir ++ [n]) <> Some Dir ->
  open_wb (os_path_join BACKUP_DIR n) w =
    (Ok (backup_dir ++ [n]),
     {| fs := <[backup_dir ++ [n] := File None]> (fs w); log := log w |}).
Proof.
  intros Hn Hi Hb Hf. unfold open_wb, bind, get_fs. cbv beta iota.
  rewrite (resolve_backup_plain _ _ Hn Hi Hb).
  destruct (fs w !! (backup_dir ++ [n])) as [[|c]|] eqn:E.
  - now destruct Hf.
  - rewrite E. reflexivity.
  - now rewrite (resolve_new_backup_plain _ _ Hn Hi Hb E).
Qed.

(** On a ready store whose backup directory can be used, [backup_db]
    returns with the table of the live file in the snapshot file. *)
Lemma backup_db_creates (now : datetime) (w : World) (t : Table) :
  store_ready w t ->
  (forall c, fs w !! backup_dir <> Some (File c)) ->
  fs w !! snapshot_file now <> Some Dir ->
  exists w1,
    backup_db now w = (Ok tt, w1) /\
    fs w1 !! instance_path = Some Dir /\
    fs w1 !! backup_dir = Some Dir /\
    fs w1 !! snapshot_file now = Some (File (Some t)) /\
    fs w1 !! db_file = Some (File (Some t)).
Proof.
  intros [Hi Hf] Hb Hs.
  destruct (os_makedirs_backup w Hi Hb) as (f & Hmk & Hfb & Hfo).
  pose proof (plain_backup_file_name now) as Hn.
  set (w0 := {| fs := f; log := log w |}) in *.
  assert (Hi0 : fs w0 !! instance_path = Some Dir).
  { simpl. rewrite Hfo; [exact Hi|apply not_eq_sym, backup_dir_not_instance]. }
  assert (Hf0 : fs w0 !! db_file = Some (File (Some t))).
  { simpl. rewrite Hfo; [exact Hf|apply not_eq_sym, backup_dir_not_db_file]. }
  assert (Hs0 : fs w0 !! (backup_dir ++ [backup_file_name now]) <> Some Dir).
  { simpl. rewrite Hfo; [exact Hs|apply backup_entry_not_backup_dir]. }
  eexists. split.
  - unfold backup_db, backup_db_try, try_except, bind. cbv beta zeta.
    rewrite Hmk, (open_rb_db_file _ _ Hi0 Hf0).
    change ("nysc_backup_" +:+ strftime_backup now +:+ ".db")
      with (backup_file_name now).
    rewrite (open_wb_backup_entry _ _ Hn Hi0 Hfb Hs0).
    unfold file_read, bind, get_fs. cbv beta iota. cbn [fs].
    rewrite lookup_insert_ne by apply backup_entry_not_db_file.
    change (f !! db_file) with (fs w0 !! db_file). rewrite Hf0.
    reflexivity.
  - cbn [fs]. unfold snapshot_file.
    rewrite !lookup_insert_eq.
    rewrite !lookup_insert_ne
      by first [apply backup_entry_not_instance
               |apply backup_entry_not_backup_dir
               |apply backup_entry_not_db_file].
    now repeat split.
Qed.

(** C7: a snapshot taken by [backup_db] on a ready store holds the table
    the live file held at that moment, and however many insertions, edits
    and deletions the live store then serves, [view_backup] of that
    snapshot still lists the rows of that table and
    [download_backup_record] still answers what it answered right after the
    backup, which for an id sqlite3 can bind is the record of that table
    with the id: the snapshot file is the same file as before. *)
Theorem snapshot_unchanged_by_mutations (now : datetime) (w : World)
    (t : Table) (ms : list mutation) :
  store_ready w t ->
  (forall c, fs w !! backup_dir <> Some (File c)) ->
  fs w !! snapshot_file now <> Some Dir ->
  let after := serve ms (snd (backup_db now w)) in
  let n := backup_file_name now in
  fs after !! snapshot_file now = Some (File (Some t)) /\
  fst (view_backup n after) =
    Ok {| flashed := [];
          body := render_template "admin_backup_dashboard.html"
                    (BackupSubmissionsContext (select_all_desc t) n);
          status := 200 |} /\
  (forall i,
     fst (download_backup_record n i after) =
       fst (download_backup_record n i (snd (backup_db now w)))) /\
  forall i,
    bindable i ->
    fst (download_backup_record n i after) =
      Ok (match select_by_id t i with
          | None =>
              {| flashed := [("Record not found in backup.", "warning")];
                 body := redirect "view_backup" [("backup_filename", n)];
                 status := 302 |}
          | Some record =>
              {| flashed := [];
                 body := attachment (record_details record)
                           ("backup_" +:+ n +:+ "_record_" +:+ pretty i +:+ ".txt");
                 status := 200 |}
          end).
Proof.
  intros Hw Hb Hs after n.
  destruct (backup_db_creates now w t Hw Hb Hs) as (w1 & Hrun & Hi & Hd & Hf & _).
  subst after. rewrite Hrun. cbn [snd].
  pose proof (plain_backup_file_name now) as Hn.
  assert (Hi' : fs (serve ms w1) !! instance_path = Some Dir)
    by (rewrite serve_frame; [exact Hi|apply db_file_not_instance]).
  assert (Hd' : fs (serve ms w1) !! backup_dir = Some Dir)
    by (rewrite serve_frame; [exact Hd|apply backup_dir_not_db_file]).
  assert (Hf' : fs (serve ms w1) !! (backup_dir ++ [n]) = Some (File (Some t)))
    by (rewrite serve_frame; [exact Hf|apply backup_entry_not_db_file]).
  split; [exact Hf'|]. split; [|split].
  - exact (view_backup_entry _ _ _ Hn Hi' Hd' Hf').
  - intros i.
    rewrite (download_backup_record_entry _ _ _ _ Hn Hi' Hd' Hf').
    now rewrite (download_backup_record_entry _ _ _ _ Hn Hi Hd Hf).
  - intros i _. exact (download_backup_record_entry _ _ _ _ Hn Hi' Hd' Hf').
Qed.

Lemma resolve_backup_entry (f : gmap (list string) node) (n : string)
    (q : list string) :
  plain_name n = true ->
  resolve f (os_path_join BACKUP_DIR n) = Some q -> q = backup_dir ++ [n].
Proof.
  intros Hn. rewrite (join_backup_plain _ Hn). unfold resolve; simpl.
  destruct (f !! instance_path) as [[|]|]; try discriminate.
  change (step instance_path "backups") with backup_dir.
  destruct (f !! backup_dir) as [[|]|]; try discriminate.
  rewrite (step_plain _ _ Hn).
  destruct (f !! (backup_dir ++ [n])); [now intros [= <-]|discriminate].
Qed.

Lemma resolve_new_backup_entry (f : gmap (list string) node) (n : string)
    (q : list string) :
  plain_name n = true ->
  resolve_new f (os_path_join BACKUP_DIR n) = Some q -> q = backup_dir ++ [n].
Proof.
  intros Hn. rewrite (join_backup_plain _ Hn).
  unfold resolve_new. cbn [comps anchor List.rev app].
  destruct (is_dot n); [discriminate|]. cbn [walk].
  destruct (f !! instance_path) as [[|]|]; try discriminate.
  change (step instance_path "backups") with backup_dir.
  destruct (f !! backup_dir) as [x|] eqn:E; [|discriminate].
  cbv beta iota. rewrite E. destruct x; [|discriminate].
  destruct (f !! (backup_dir ++ [n])); [discriminate|now intros [= <-]].
Qed.

Lemma frame_os_makedirs_backup :
  frame (fun p => p = db_file) (os_makedirs BACKUP_DIR) (fun _ => True).
Proof.
  intros w. split; [|trivial]. intros p ->. rewrite BACKUP_DIR_eq.
  unfold os_makedirs, makedirs_go, bind, get_fs. cbn [comps anchor].
  cbv beta iota.
  destruct (fs w !! instance_path) as [[|]|]; try reflexivity.
  change (step instance_path "backups") with backup_dir.
  destruct (fs w !! backup_dir) as [[|]|]; try reflexivity.
  simpl. apply lookup_insert_ne, backup_dir_not_db_file.
Qed.

Lemma frame_open_rb (keep : list string -> Prop) (p : ospath) :
  frame keep (open_rb p) (fun _ => True).
Proof.
  intros w. split; [|trivial]. intros q _.
  unfold open_rb, bind, get_fs. cbv beta iota.
  destruct (resolve (fs w) p) as [h|]; [|reflexivity].
  now destruct (fs w !! h) as [[|]|].
Qed.

Lemma frame_open_wb (keep : list string -> Prop) (p : ospath)
    (Q : list string -> Prop) :
  (forall f q, resolve f p = Some q -> Q q /\ ~ keep q) ->
  (forall f q, resolve_new f p = Some q -> Q q /\ ~ keep q) ->
  frame keep (open_wb p) Q.
Proof.
  intros Hr Hn w. unfold open_wb, bind, get_fs. cbv beta iota.
  destruct (resolve (fs w) p) as [q|] eqn:Er.
  - destruct (Hr _ _ Er) as [HQ Hk].
    destruct (fs w !! q) as [[|c]|]; simpl;
      try (split; [reflexivity|discriminate]).
    split; [|now intros a [= <-]].
    intros p' Hp'. apply lookup_insert_ne. congruence.
  - destruct (resolve_new (fs w) p) as [q|] eqn:En; simpl.
    + destruct (Hn _ _ En) as [HQ Hk]. split; [|now intros a [= <-]].
      intros p' Hp'. apply lookup_insert_ne. congruence.
    + split; [reflexivity|discriminate].
Qed.

Lemma frame_file_read (keep : list string -> Prop) (h : list string) :
  frame keep (file_read h) (fun _ => True).
Proof.
  intros w. split; [|trivial]. intros q _.
  unfold file_read, bind, get_fs. cbv beta iota.
  now destruct (fs w !! h) as [[|]|].
Qed.

Lemma frame_backup_db (now : datetime) :
  frame (fun p => p = db_file) (backup_db now) (fun _ => True).
Proof.
  pose proof (plain_backup_file_name now) as Hn.
  unfold backup_db, backup_db_try. apply frame_try; [|intros e; apply frame_logging].
  eapply frame_bind; [apply frame_os_makedirs_backup|]. intros _ _. cbv zeta.
  eapply frame_bind; [apply frame_open_rb|]. intros src _.
  eapply frame_bind.
  - apply (frame_open_wb _ _ (fun q => q <> db_file)).
    + intros f q H. apply (resolve_backup_entry _ _ _ Hn) in H. subst q.
      split; apply backup_entry_not_db_file.
    + intros f q H. apply (resolve_new_backup_entry _ _ _ Hn) in H. subst q.
      split; apply backup_entry_not_db_file.
  - intros dst Hdst. eapply frame_bind; [apply frame_file_read|]. intros c _.
    eapply frame_bind; [|intros _ _; apply frame_logging].
    unfold file_write. apply (frame_put_node _ _ _ (fun _ => True)); auto.
Qed.

(** C8 (as amended): [backup_db] leaves the live database file as it
    was, whatever happens; it always returns normally, and when its [try]
    block raises, the error is recorded in the log at level ERROR and goes
    no further. *)
Theorem backup_db_keeps_live_file_and_swallows_errors (now : datetime)
    (w : World) :
  fs (snd (backup_db now w)) !! db_file = fs w !! db_file /\
  fst (backup_db now w) = Ok tt /\
  forall e w1,
    backup_db_try now w = (Raise e, w1) ->
    backup_db now w =
      (Ok tt, {| fs := fs w1; log := log w1 ++ [(ERROR, "Backup failed: %s")] |}).
Proof.
  split; [now apply frame_backup_db|].
  unfold backup_db, try_except.
  destruct (backup_db_try now w) as [[[]|e] w1]; (split; [reflexivity|]).
  - discriminate.
  - now intros e' w1' [= <- <-].
Qed.

(** *** Normalisation *)

Lemma ascii_upper_idempotent (c : ascii) :
  ascii_upper (ascii_upper c) = ascii_upper c.
Proof. destruct c as [[] [] [] [] [] [] [] []]; reflexivity. Qed.

Lemma upper_idempotent (s : string) : upper (upper s) = upper s.
Proof.
  induction s as [|c s IH]; [reflexivity|].
  cbn [upper]. now rewrite ascii_upper_idempotent, IH.
Qed.

Lemma upper_length (s : string) : String.length (upper s) = String.length s.
Proof. induction s as [|c s IH]; [reflexivity|]. cbn [upper String.length]. now rewrite IH. Qed.

Lemma ascii_upper_space (c : ascii) : is_py_space c = true -> ascii_upper c = c.
Proof. destruct c as [[] [] [] [] [] [] [] []]; (reflexivity || discriminate). Qed.

(** C3 (as amended): every recognized field of [normalize form] is the
    upper-cased form value, and is the empty string when the form lacks the
    key; where the form value is ASCII text the field has the length of the
    form value (nothing is trimmed) and is unchanged by a second
    upper-casing; [preview] and [submit] depend on the form through
    [normalize form] only, so that the duplicate check and the row stored
    see the normalized values. *)
Theorem normalize_uppercases_and_fills (form : gmap string string) :
  Forall (fun kp : string * (Data -> string) =>
            let v := kp.2 (normalize form) in
            v = upper (form_get form kp.1) /\
            (form !! kp.1 = None -> v = EmptyString) /\
            (is_ascii (form_get form kp.1) = true ->
             upper v = v /\
             String.length v = String.length (form_get form kp.1)))
         recognized_fields /\
  (forall now form' w,
     normalize form = normalize form' -> submit now form w = submit now form' w) /\
  (forall form' w,
     normalize form = normalize form' -> preview form w = preview form' w).
Proof.
  split; [|split].
  - unfold recognized_fields.
    repeat (apply Forall_cons; split;
            [cbn [fst snd normalize state_code corps_member_name sex bank_name
                  account_number phone_number callup_number callup_letter_name
                  account_name];
             split; [reflexivity|split];
             [unfold form_get; now intros ->
             |intros _; split; [apply upper_idempotent|apply upper_length]]|]).
    now apply Forall_nil.
  - intros now form' w E. unfold submit. now rewrite E.
  - intros form' w E. unfold preview. now rewrite E.
Qed.

(** *** Searching *)

Lemma startswith_prefix (p s : string) :
  startswith p s = true <-> exists post, s = p +:+ post.
Proof.
  revert s. induction p as [|a p IH]; intros s.
  - split; [intros _; now exists s|reflexivity].
  - destruct s as [|b s]; cbn [startswith].
    + split; [discriminate|intros [post [=]]].
    + rewrite andb_true_iff, Ascii.eqb_eq, IH. split.
      * intros [-> [post ->]]. now exists post.
      * intros [post [= -> ->]]. split; [reflexivity|now exists post].
Qed.

Lemma contains_substring (n h : string) :
  contains n h = true <-> exists pre post, h = pre +:+ n +:+ post.
Proof.
  induction h as [|c h IH]; cbn [contains]; rewrite orb_true_iff.
  - split.
    + intros [H|[=]]. apply startswith_prefix in H as [post ->].
      now exists EmptyString, post.
    + intros ([|? ?] & post & E); [|discriminate].
      left. apply startswith_prefix. now exists post.
  - rewrite IH, startswith_prefix. split.
    + intros [[post ->]|(pre & post & ->)].
      * now exists EmptyString, post.
      * now exists (String c pre), post.
    + intros ([|c' pre] & post & E).
      * left. now exists post.
      * right. injection E as -> ->. now exists pre, post.
Qed.

Lemma like_percent (p t : string) :
  like (String "%" p) t =
  like p t || match t with
              | EmptyString => false
              | String _ t' => like (String "%" p) t'
              end.
Proof. destruct t; reflexivity. Qed.

Lemma like_char (c : ascii) (p t : string) :
  Ascii.eqb c "%" = false ->
  like (String c p) t =
  match t with
  | EmptyString => false
  | String d t' =>
      (Ascii.eqb c "_" || Ascii.eqb (ascii_upper c) (ascii_upper d)) && like p t'
  end.
Proof. intros H. destruct t; cbn [like]; now rewrite H. Qed.

Lemma like_any (t : string) : like "%" t = true.
Proof.
  induction t as [|d t IH]; [reflexivity|].
  rewrite like_percent, IH. apply orb_true_r.
Qed.

Lemma like_literal_prefix (q t : string) :
  wildcard_free q = true ->
  like (q +:+ "%") t = startswith (upper q) (upper t).
Proof.
  revert t. induction q as [|c q IH]; intros t Hq.
  - apply like_any.
  - cbn [wildcard_free] in Hq. apply andb_true_iff in Hq as [Hc Hq].
    apply andb_true_iff in Hc as [Hp Hu].
    apply negb_true_iff in Hp, Hu.
    change (String c q +:+ "%") with (String c (q +:+ "%")).
    cbn [upper]. rewrite (like_char _ _ _ Hp), Hu.
    destruct t as [|d t]; [reflexivity|].
    cbn [upper startswith orb]. now rewrite (IH _ Hq).
Qed.

(** Without wildcards in [q], the pattern [%q%] matches the texts that
    contain [q] up to case. *)
Lemma like_literal (q t : string) :
  wildcard_free q = true ->
  like ("%" +:+ q +:+ "%") t = icontains q t.
Proof.
  intros Hq. unfold icontains.
  change ("%" +:+ q +:+ "%") with (String "%" (q +:+ "%")).
  induction t as [|d t IH]; rewrite like_percent, (like_literal_prefix _ _ Hq).
  - reflexivity.
  - cbn [upper contains]. now rewrite IH.
Qed.

Lemma icontains_empty (t : string) : icontains EmptyString t = true.
Proof. unfold icontains. now destruct (upper t). Qed.

Lemma search_ready (form : gmap string string) (q : string) (w : World)
    (t : Table) :
  store_ready w t -> form !! "query" = Some q ->
  fst (search form w) =
    Ok {| flashed := [];
          body := render_template "admin_dashboard.html"
                    (SubmissionsContext (select_like t ("%" +:+ q +:+ "%")));
          status := 200 |}.
Proof.
  intros Hw Hq. unfold search, with_closing, try_except, bind, form_item.
  cbv beta zeta. rewrite Hq. cbn [ret]. cbv beta iota.
  now rewrite (get_db_ready _ _ Hw).
Qed.

(** C6 (as amended): on a ready store whose records hold no NUL character
    in the name, the state code and the account number, for a query [q]
    without [%], [_] and NUL whose pattern [%q%] is within SQLite's limit on
    the length of a pattern, [search] renders exactly the records that
    contain [q], up to ASCII case, in the name, the state code or the
    account number; for the empty query these are all the records, in table
    order. *)
Theorem search_returns_case_insensitive_matches (form : gmap string string)
    (q : string) (w : World) (t : Table) :
  store_ready w t -> form !! "query" = Some q ->
  wildcard_free q = true -> nul_free q = true ->
  Z.of_nat (String.length ("%" +:+ q +:+ "%")) <= like_pattern_limit ->
  forallb searched_nul_free (rows t) = true ->
  exists results,
    fst (search form w) =
      Ok {| flashed := [];
            body := render_template "admin_dashboard.html"
                      (SubmissionsContext results);
            status := 200 |} /\
    (forall r, In r results <->
               In r (rows t) /\
               (icontains q (corps_member_name (fields r)) = true \/
                icontains q (state_code (fields r)) = true \/
                icontains q (account_number (fields r)) = true)) /\
    (q = EmptyString -> results = rows t).
Proof.
  intros Hw Hf Hq _ _ _. exists (select_like t ("%" +:+ q +:+ "%")).
  split; [exact (search_ready _ _ _ _ Hw Hf)|]. split.
  - intros r. unfold select_like. rewrite filter_In, !(like_literal _ _ Hq).
    rewrite !orb_true_iff. tauto.
  - intros ->. unfold select_like.
    rewrite <- (List.filter_true (rows t)) at 2.
    apply List.filter_ext. intros r.
    now rewrite (like_literal EmptyString _ eq_refl), icontains_empty.
Qed.

(** *** Snapshot names and their order *)

Lemma ascii_compare_refl (c : ascii) : Ascii.compare c c = Eq.
Proof. unfold Ascii.compare. apply N.compare_refl. Qed.

Lemma compare_cons (c1 c2 : ascii) (s1 s2 : string) :
  String.compare (String c1 s1) (String c2 s2) =
  then_compare (Ascii.compare c1 c2) (String.compare s1 s2).
Proof. cbn [String.compare]. now destruct (Ascii.compare c1 c2). Qed.

Lemma compare_cons_same (c : ascii) (s1 s2 : string) :
  String.compare (String c s1) (String c s2) = String.compare s1 s2.
Proof. now rewrite compare_cons, ascii_compare_refl. Qed.

Lemma compare_digit (a b : nat) :
  (a < 10)%nat -> (b < 10)%nat ->
  Ascii.compare (digit a) (digit b) = (a ?= b)%nat.
Proof.
  intros Ha Hb.
  do 10 (destruct a as [|a];
         [do 10 (destruct b as [|b]; [reflexivity|]); lia|]).
  lia.
Qed.

(** Two fields of the same width compare as the numbers they print, when
    the numbers agree above that width. *)
Lemma compare_zpad_high (w n m : nat) (x y : string) :
  (n / 10 ^ w = m / 10 ^ w)%nat ->
  String.compare (zpad w n +:+ x) (zpad w m +:+ y) =
  then_compare (n ?= m)%nat (String.compare x y).
Proof.
  revert x y. induction w as [|w IH]; intros x y H.
  - cbn [Nat.pow] in H. rewrite !Nat.div_1_r in H. subst m.
    now rewrite Nat.compare_refl.
  - cbn [zpad].
    change (String ?c ?s +:+ ?z) with (String c (s +:+ z)).
    rewrite compare_cons.
    assert (Hp : (10 ^ w <> 0)%nat) by (apply Nat.pow_nonzero; lia).
    assert (Hk : ((n / 10 ^ w) / 10 = (m / 10 ^ w) / 10)%nat).
    { rewrite !Nat.Div0.div_div. cbn [Nat.pow] in H.
      now rewrite (Nat.mul_comm 10) in H. }
    pose proof (Nat.div_mod_eq (n / 10 ^ w) 10) as En.
    pose proof (Nat.div_mod_eq (m / 10 ^ w) 10) as Em.
    pose proof (Nat.mod_upper_bound (n / 10 ^ w) 10 ltac:(lia)) as Bn.
    pose proof (Nat.mod_upper_bound (m / 10 ^ w) 10 ltac:(lia)) as Bm.
    rewrite (compare_digit _ _ Bn Bm).
    destruct (Nat.compare_spec ((n / 10 ^ w) mod 10) ((m / 10 ^ w) mod 10))
      as [E|L|G]; cbn [then_compare].
    + apply IH. lia.
    + assert (Hlt : (n / 10 ^ w < m / 10 ^ w)%nat) by lia.
      assert (Hnm : (n < m)%nat).
      { destruct (Nat.lt_ge_cases n m) as [|Hge]; [assumption|].
        apply (Nat.Div0.div_le_mono _ _ (10 ^ w)) in Hge. lia. }
      apply Nat.compare_lt_iff in Hnm. now rewrite Hnm.
    + assert (Hlt : (m / 10 ^ w < n / 10 ^ w)%nat) by lia.
      assert (Hnm : (m < n)%nat).
      { destruct (Nat.lt_ge_cases m n) as [|Hge]; [assumption|].
        apply (Nat.Div0.div_le_mono _ _ (10 ^ w)) in Hge. lia. }
      apply Nat.compare_gt_iff in Hnm. now rewrite Hnm.
Qed.

Lemma compare_zpad (w n m : nat) (x y : string) :
  (n < 10 ^ w)%nat -> (m < 10 ^ w)%nat ->
  String.compare (zpad w n +:+ x) (zpad w m +:+ y) =
  then_compare (n ?= m)%nat (String.compare x y).
Proof.
  intros Hn Hm. apply compare_zpad_high.
  now rewrite !Nat.div_small.
Qed.

Lemma backup_file_name_blocks (t : datetime) :
  backup_file_name t =
  "nysc_backup_" +:+ zpad 4 (year t) +:+ "-" +:+ zpad 2 (month t) +:+ "-"
  +:+ zpad 2 (day t) +:+ "_" +:+ zpad 2 (hour t) +:+ "-"
  +:+ zpad 2 (minute t) +:+ "-" +:+ zpad 2 (second t) +:+ ".db".
Proof.
  unfold backup_file_name, strftime_backup. reflexivity.
Qed.

Lemma compare_append_same (p x y : string) :
  String.compare (p +:+ x) (p +:+ y) = String.compare x y.
Proof.
  induction p as [|c p IH]; [reflexivity|].
  change (String c p +:+ ?z) with (String c (p +:+ z)).
  now rewrite compare_cons_same.
Qed.

(** The names [backup_db] gives compare as their clock values do. *)
Lemma compare_backup_file_name (a b : datetime) :
  valid_datetime a -> valid_datetime b ->
  String.compare (backup_file_name a) (backup_file_name b) = dt_compare a b.
Proof.
  intros (Hy & Hmo & Hd & Hh & Hmi & Hs) (Hy' & Hmo' & Hd' & Hh' & Hmi' & Hs').
  rewrite !backup_file_name_blocks. unfold dt_compare.
  assert (H2 : (10 ^ 2 = 100)%nat) by reflexivity.
  rewrite (compare_append_same "nysc_backup_").
  rewrite compare_zpad by lia. f_equal.
  rewrite (compare_append_same "-").
  rewrite compare_zpad by lia. f_equal.
  rewrite (compare_append_same "-").
  rewrite compare_zpad by lia. f_equal.
  rewrite (compare_append_same "_").
  rewrite compare_zpad by lia. f_equal.
  rewrite (compare_append_same "-").
  rewrite compare_zpad by lia. f_equal.
  rewrite (compare_append_same "-").
  rewrite compare_zpad by lia.
  destruct (second a ?= second b)%nat; reflexivity.
Qed.

Lemma string_le_compare (x y : string) :
  String.le x y <-> String.compare x y <> Gt.
Proof.
  unfold String.le, String.leb.
  destruct (String.compare x y); simpl; split; (congruence || tauto).
Qed.

Lemma not_older_name (a b : datetime) :
  valid_datetime a -> valid_datetime b ->
  String.le (backup_file_name b) (backup_file_name a) -> not_older a b.
Proof.
  intros Ha Hb H. apply string_le_compare in H.
  rewrite String.compare_antisym, (compare_backup_file_name _ _ Ha Hb) in H.
  unfold not_older. destruct (dt_compare a b); simpl in H; congruence.
Qed.

Lemma StronglySorted_rev {T} (R : T -> T -> Prop) (l : list T) :
  StronglySorted R l -> StronglySorted (fun x y => R y x) (List.rev l).
Proof.
  induction 1 as [|x l Hl IH Hx]; simpl; [constructor|].
  apply StronglySorted_app. split; [|split].
  - intros a b Ha Hb. apply list_elem_of_In in Ha.
    apply list_elem_of_singleton in Hb. subst b.
    apply in_rev in Ha. rewrite List.Forall_forall in Hx. auto.
  - exact IH.
  - repeat constructor.
Qed.

Lemma newest_first_of_names (l : list datetime) :
  Forall valid_datetime l ->
  StronglySorted (fun x y => String.le y x) (List.map backup_file_name l) ->
  StronglySorted not_older l.
Proof.
  induction l as [|a l IH]; intros Hv Hs; [constructor|].
  apply Forall_cons in Hv as [Ha Hv]. simpl in Hs.
  apply StronglySorted_cons in Hs as [Hhd Hs].
  constructor; [auto|].
  rewrite List.Forall_forall. intros b Hb.
  rewrite List.Forall_forall in Hhd, Hv.
  apply not_older_name; auto using in_map.
Qed.

Lemma os_listdir_backup (w : World) :
  fs w !! instance_path = Some Dir -> fs w !! backup_dir = Some Dir ->
  os_listdir BACKUP_DIR w = (Ok (children (fs w) backup_dir), w).
Proof.
  intros Hi Hb. rewrite BACKUP_DIR_eq.
  unfold os_listdir, bind, get_fs, resolve. cbn [anchor comps walk].
  cbv beta iota. rewrite Hi.
  change (step instance_path "backups") with backup_dir.
  now rewrite Hb, Hb.
Qed.

(** C10: when the [.db] entries of the backup directory are the names
    [backup_db] gave to snapshots taken at the clock values [ts],
    [list_backups] renders these names newest first: the list is the
    names of a rearrangement of [ts] in which no entry is older than one
    after it, and it is in descending lexicographic order. *)
Theorem list_backups_newest_first (w : World) (ts : list datetime) :
  fs w !! instance_path = Some Dir -> fs w !! backup_dir = Some Dir ->
  Forall valid_datetime ts ->
  List.filter (endswith ".db") (children (fs w) backup_dir)
    ≡ₚ List.map backup_file_name ts ->
  exists listed,
    fst (list_backups w) =
      Ok {| flashed := [];
            body := render_template "admin_backups.html"
                      (BackupsContext (List.map backup_file_name listed));
            status := 200 |} /\
    listed ≡ₚ ts /\
    StronglySorted not_older listed /\
    StronglySorted (fun x y => String.le y x) (List.map backup_file_name listed).
Proof.
  intros Hi Hb Hv Hp.
  set (names := List.filter (endswith ".db") (children (fs w) backup_dir)) in *.
  assert (Hperm : sorted_reverse names ≡ₚ List.map backup_file_name ts).
  { unfold sorted_reverse. rewrite <- Hp, <- Permutation_rev.
    apply merge_sort_Permutation. }
  destruct (Permutation_map_inv _ _ Hperm) as (listed & Hl & Hpl).
  assert (Hs : StronglySorted (fun x y => String.le y x) (sorted_reverse names)).
  { unfold sorted_reverse. apply StronglySorted_rev.
    apply StronglySorted_merge_sort; apply _. }
  exists listed. split; [|split; [|split]].
  - unfold list_backups, try_except, bind. cbv beta zeta.
    rewrite (os_listdir_backup _ Hi Hb). cbn [logging ret fst]. cbv beta iota.
    fold names. now rewrite Hl.
  - now symmetry.
  - apply newest_first_of_names; [|now rewrite <- Hl].
    now rewrite <- Hpl.
  - now rewrite <- Hl.
Qed.

(** *** Uniqueness of account numbers *)

(** [submit] and [delete] keep the account numbers of a ready store
    distinct. [edit] is not among them: it writes the account number it is
    given without looking at the other rows. *)
Lemma submit_keeps_unique (now : datetime) (form : gmap string string)
    (w : World) (t : Table) :
  store_ready w t -> unique_accounts t ->
  exists t', store_ready (snd (submit now form w)) t' /\ unique_accounts t'.
Proof.
  intros Hw Hu.
  destruct (select_by_account t (account_number (normalize form))) as [r|] eqn:E.
  - rewrite (submit_duplicate _ _ _ _ _ Hw E). exists t.
    split; [|exact Hu]. now apply (fun H => store_ready_same_fs w _ t H Hw).
  - rewrite (submit_fresh _ _ _ _ Hw E). eexists. split.
    + exact (store_ready_insert _ _ _ _ Hw).
    + now apply insert_row_unique.
Qed.

Lemma delete_keeps_unique (i : Z) (w : World) (t : Table) :
  store_ready w t -> unique_accounts t ->
  exists t', store_ready (snd (delete i w)) t' /\ unique_accounts t'.
Proof.
  intros Hw Hu. rewrite (delete_ready _ _ _ Hw). eexists. split.
  - exact (store_ready_insert _ _ _ _ Hw).
  - now apply delete_row_unique.
Qed.

(** *** Looking a snapshot up by name *)

Lemma get_backup_db_missing (n : string) (w : World) :
  resolve (fs w) (os_path_join BACKUP_DIR n) = None ->
  get_backup_db n w = (Raise (Exception "Backup file does not exist."), w).
Proof.
  intros H. unfold get_backup_db, os_path_exists, bind, get_fs.
  cbv beta zeta iota. now rewrite H.
Qed.

(** A file name opens a file of the backup directory or nothing. *)
Lemma get_backup_db_plain_inside (n : string) (w w' : World) (c : Connection) :
  plain_name n = true ->
  get_backup_db n w = (Ok c, w') -> conn_file c = backup_dir ++ [n].
Proof.
  intros Hn. unfold get_backup_db, os_path_exists, bind, get_fs.
  cbv beta zeta iota.
  destruct (resolve (fs w) (os_path_join BACKUP_DIR n)) as [q|] eqn:E;
    cbn [ret negb]; cbv beta iota; [|discriminate].
  unfold sqlite3_connect, bind, get_fs. cbv beta iota. rewrite E.
  apply (resolve_backup_entry _ _ _ Hn) in E. subst q.
  destruct (fs w !! (backup_dir ++ [n])) as [[|img]|]; try discriminate.
  now intros [= <- _].
Qed.

(** ** Further properties of the handlers *)

(** *** Opening the database *)

Lemma resolve_cannot_open (w : World) :
  cannot_open w ->
  resolve_new (fs w) DATABASE_PATH = None /\
  (resolve (fs w) DATABASE_PATH = None \/
   resolve (fs w) DATABASE_PATH = Some db_file /\ fs w !! db_file = Some Dir).
Proof.
  intros H. rewrite DATABASE_PATH_eq. unfold resolve, resolve_new.
  cbn [anchor comps walk List.rev app].
  change (step instance_path "nysc_accounts.db") with db_file.
  change (is_dot "nysc_accounts.db") with false. cbv iota. fold db_file.
  destruct (fs w !! instance_path) as [n|] eqn:E; [|now split; [|left]].
  cbv beta iota. rewrite E.
  destruct n as [|c]; [|now split; [|left]].
  destruct H as [H|H]; [now destruct H|].
  change (instance_path ++ ["nysc_accounts.db"]) with db_file.
  rewrite H. split; [reflexivity|]. right. now split.
Qed.

Lemma sqlite3_connect_cannot_open (w : World) :
  cannot_open w ->
  sqlite3_connect DATABASE_PATH w =
    (Raise (OperationalError "unable to open database file"), w).
Proof.
  intros H. destruct (resolve_cannot_open _ H) as [Hn [Hr|[Hr Hd]]];
    unfold sqlite3_connect, bind, get_fs; cbv beta iota; rewrite Hr.
  - now rewrite Hn.
  - now rewrite Hd.
Qed.

Lemma get_db_attempts_failed (n : nat) (w : World) :
  cannot_open w ->
  get_db_attempts (S n) w =
    get_db_attempts n
      {| fs := fs w;
         log := log w ++ [(ERROR, "Database connection failed (attempt %d): %s")] |}.
Proof.
  intros H. cbn [get_db_attempts]. unfold try_except, bind.
  now rewrite (sqlite3_connect_cannot_open _ H).
Qed.

Lemma get_db_cannot_open (w : World) :
  cannot_open w ->
  get_db w =
    (Raise (Exception "Failed to connect to database after 3 attempts"),
     {| fs := fs w;
        log := (((log w
                  ++ [(ERROR, "Database connection failed (attempt %d): %s")])
                  ++ [(ERROR, "Database connection failed (attempt %d): %s")])
                  ++ [(ERROR, "Database connection failed (attempt %d): %s")])
                  ++ [(CRITICAL, "Failed to connect to database after {retries} attempts")] |}).
Proof.
  intros H. unfold get_db.
  rewrite !get_db_attempts_failed by exact H. reflexivity.
Qed.

(** X3: when the database file cannot be opened, [get_db] makes its
    three attempts, each logged as an error, logs the failure as critical
    and raises; no file is touched. *)
Theorem get_db_gives_up_after_three_attempts (w : World) :
  cannot_open w ->
  get_db w =
    (Raise (Exception "Failed to connect to database after 3 attempts"),
     {| fs := fs w;
        log := (((log w
                  ++ [(ERROR, "Database connection failed (attempt %d): %s")])
                  ++ [(ERROR, "Database connection failed (attempt %d): %s")])
                  ++ [(ERROR, "Database connection failed (attempt %d): %s")])
                  ++ [(CRITICAL, "Failed to connect to database after {retries} attempts")] |}).
Proof.
  intros H. unfold get_db.
  rewrite !get_db_attempts_failed by exact H. reflexivity.
Qed.

Lemma resolve_absent_db_file (f : gmap (list string) node) :
  f !! instance_path = Some Dir -> f !! db_file = None ->
  resolve f DATABASE_PATH = None /\ resolve_new f DATABASE_PATH = Some db_file.
Proof.
  intros Hd Hf. rewrite DATABASE_PATH_eq. unfold resolve, resolve_new.
  cbn [anchor comps walk List.rev app].
  change (step instance_path "nysc_accounts.db") with db_file.
  change (is_dot "nysc_accounts.db") with false. cbv iota.
  rewrite Hd, Hf. cbv beta iota. rewrite Hd.
  change (instance_path ++ ["nysc_accounts.db"]) with db_file.
  now rewrite Hf.
Qed.

Lemma sqlite3_connect_new (p : ospath) (q : list string) (w : World) :
  resolve (fs w) p = None -> resolve_new (fs w) p = Some q ->
  sqlite3_connect p w =
    (Ok {| conn_file := q; conn_image := None |},
     {| fs := <[q := File None]> (fs w); log := log w |}).
Proof.
  intros Hr Hn. unfold sqlite3_connect, bind, get_fs. cbv beta iota.
  now rewrite Hr, Hn.
Qed.

Lemma get_db_uninitialised (w : World) :
  store_uninitialised w ->
  get_db w =
    (Ok {| conn_file := db_file; conn_image := None |},
     {| fs := <[db_file := File None]> (fs w);
        log := log w ++ [(DEBUG, "Database connection established on attempt %d.")] |}).
Proof.
  intros [Hd [Hf|Hf]].
  - destruct (resolve_absent_db_file _ Hd Hf) as [Hr Hn].
    unfold get_db, get_db_attempts, try_except, bind.
    now rewrite (sqlite3_connect_new _ _ _ Hr Hn).
  - unfold get_db, get_db_attempts, try_except, bind.
    rewrite (sqlite3_connect_file _ _ _ _ (resolve_db_file _ _ Hd Hf) Hf).
    cbn [logging ret]. now rewrite (insert_id _ _ _ Hf).
Qed.

(** *** Creating the table *)

Lemma os_makedirs_instance (w : World) :
  fs w !! instance_path = Some Dir -> os_makedirs instance_dir w = (Ok tt, w).
Proof.
  intros Hd. unfold os_makedirs, bind, get_fs.
  cbn [instance_dir comps anchor]. cbv beta iota. now rewrite Hd.
Qed.

Lemma init_db_uninitialised (w : World) :
  store_uninitialised w ->
  init_db w =
    (Ok tt,
     {| fs := <[db_file := File (Some empty_table)]> (<[db_file := File None]> (fs w));
        log := (log w ++ [(DEBUG, "Database connection established on attempt %d.")])
               ++ [(INFO, "Database initialized successfully.")] |}).
Proof.
  intros Hu. pose proof Hu as [Hd _].
  unfold init_db, with_closing, try_except, bind.
  now rewrite (os_makedirs_instance _ Hd), (get_db_uninitialised _ Hu).
Qed.

(** X1: on an instance folder whose database file is absent or empty,
    [init_db] returns normally and leaves a ready store with the empty
    table; no other file changes. *)
Theorem init_db_creates_empty_table (w : World) :
  store_uninitialised w ->
  fst (init_db w) = Ok tt /\
  store_ready (snd (init_db w)) empty_table /\
  forall p, p <> db_file -> fs (snd (init_db w)) !! p = fs w !! p.
Proof.
  intros Hu. pose proof Hu as [Hd _].
  rewrite (init_db_uninitialised _ Hu). cbn [fst snd].
  split; [reflexivity|]. split; [split|]; cbn [fs].
  - rewrite !lookup_insert_ne by (apply not_eq_sym, db_file_not_instance).
    exact Hd.
  - apply lookup_insert_eq.
  - intros p Hp. now rewrite !lookup_insert_ne by congruence.
Qed.

(** X2: on a ready store [init_db] returns normally and changes no file:
    the table and its records are kept. *)
Theorem init_db_keeps_records (w : World) (t : Table) :
  store_ready w t ->
  fst (init_db w) = Ok tt /\ fs (snd (init_db w)) = fs w.
Proof.
  intros Hw. pose proof Hw as [Hd Hf].
  unfold init_db, with_closing, try_except, bind.
  rewrite (os_makedirs_instance _ Hd), (get_db_ready _ _ Hw).
  cbn [create_table_if_not_exists commit put_node ret logging conn_image
       conn_file fs log fst snd]. cbv beta iota.
  split; [reflexivity|]. cbn [fs]. now apply insert_id.
Qed.

(** X4: when the database file cannot be opened, [submit], [delete],
    [edit] and [admin_dashboard] answer with their error page and status
    500, and none of them touches a file. *)
Theorem storage_failure_is_answered_500 (w : World)
    (now : datetime) (form : gmap string string) (i : Z) :
  cannot_open w ->
  (fst (submit now form w) = Ok submit_error_response /\
   fs (snd (submit now form w)) = fs w) /\
  (fst (delete i w) = Ok delete_error_response /\
   fs (snd (delete i w)) = fs w) /\
  (fst (edit POST i form w) = Ok edit_error_response /\
   fs (snd (edit POST i form w)) = fs w) /\
  (fst (admin_dashboard w) = Ok dashboard_error_response /\
   fs (snd (admin_dashboard w)) = fs w).
Proof.
  intros H. pose proof (get_db_cannot_open _ H) as Hg.
  repeat split;
    unfold submit, delete, edit, admin_dashboard, with_closing, try_except,
      bind; cbv beta zeta; rewrite Hg; reflexivity.
Qed.

(** X5: when a directory has the name of the database file, [init_db]
    logs the failure as critical and raises it to its caller, leaving the
    files as they were. *)
Theorem init_db_raises_storage_failure (w : World) :
  fs w !! instance_path = Some Dir -> fs w !! db_file = Some Dir ->
  fst (init_db w) =
    Raise (Exception "Failed to connect to database after 3 attempts") /\
  fs (snd (init_db w)) = fs w /\
  last (log (snd (init_db w))) =
    Some (CRITICAL, "Database initialization failed: %s").
Proof.
  intros Hd Hf.
  assert (H : cannot_open w) by now right.
  pose proof (get_db_cannot_open _ H) as Hg.
  unfold init_db, with_closing, try_except, bind.
  rewrite (os_makedirs_instance _ Hd), Hg. cbn [logging raise fst snd fs log].
  repeat split. now rewrite last_snoc.
Qed.

(** *** A store without its table *)

(** X6: on a database file without the table (absent or empty, as before
    [init_db] has run), [submit] answers with its error page and status
    500 and stores nothing: the database file is left empty and no other
    file changes. *)
Theorem submit_without_table_stores_nothing (now : datetime)
    (form : gmap string string) (w : World) :
  store_uninitialised w ->
  fst (submit now form w) = Ok submit_error_response /\
  fs (snd (submit now form w)) !! db_file = Some (File None) /\
  forall p, p <> db_file -> fs (snd (submit now form w)) !! p = fs w !! p.
Proof.
  intros Hu. split; [|split].
  - unfold submit, with_closing, try_except, bind. cbv beta zeta.
    now rewrite (get_db_uninitialised _ Hu).
  - unfold submit, with_closing, try_except, bind. cbv beta zeta.
    rewrite (get_db_uninitialised _ Hu). cbn. apply lookup_insert_eq.
  - intros p Hp. now apply frame_submit.
Qed.

(** *** Reading handlers *)

Lemma download_record_ready (i : Z) (w : World) (t : Table) :
  store_ready w t ->
  fst (download_record i w) =
    Ok (match select_by_id t i with
        | None =>
            {| flashed := [("Record not found.", "warning")];
               body := redirect "admin_dashboard" [];
               status := 302 |}
        | Some record =>
            {| flashed := [];
               body := attachment (record_details record)
                         ("record_" +:+ pretty i +:+ ".txt");
               status := 200 |}
        end) /\
  fs (snd (download_record i w)) = fs w.
Proof.
  intros Hw. unfold download_record, with_closing, try_except, bind.
  rewrite (get_db_ready _ _ Hw). unfold execute_query; cbn [conn_image ret].
  now destruct (select_by_id t i).
Qed.

(** X7: on a ready store the handlers that only read ([admin_dashboard],
    [search], [edit] on GET, [download_record]) change no file. *)
Theorem reading_handlers_change_no_file (w : World) (t : Table)
    (form : gmap string string) (i : Z) :
  store_ready w t ->
  fs (snd (admin_dashboard w)) = fs w /\
  fs (snd (search form w)) = fs w /\
  fs (snd (edit GET i form w)) = fs w /\
  fs (snd (download_record i w)) = fs w.
Proof.
  intros Hw. repeat split.
  - unfold admin_dashboard, with_closing, try_except, bind.
    now rewrite (get_db_ready _ _ Hw).
  - unfold search, with_closing, try_except, bind, form_item. cbv beta zeta.
    destruct (form !! "query"); cbn [ret raise]; cbv beta iota;
      [|reflexivity].
    now rewrite (get_db_ready _ _ Hw).
  - unfold edit, with_closing, try_except, bind.
    rewrite (get_db_ready _ _ Hw). unfold execute_query; cbn [conn_image ret].
    now destruct (select_by_id t i).
  - apply (download_record_ready _ _ _ Hw).
Qed.

Lemma frame_get_backup_db (n : string) :
  frame (fun _ => True) (get_backup_db n) (fun _ => True).
Proof.
  intros w. split; [|trivial]. intros p _.
  unfold get_backup_db, os_path_exists, bind, get_fs. cbv beta zeta iota.
  destruct (resolve (fs w) (os_path_join BACKUP_DIR n)) as [q|] eqn:E;
    cbn [ret negb]; cbv beta iota; [|reflexivity].
  unfold sqlite3_connect, bind, get_fs. cbv beta iota. rewrite E.
  now destruct (fs w !! q) as [[|c]|].
Qed.

(** X8: whatever name they are given, a path out of the backup
    directory included, [view_backup] and [download_backup_record] write
    no file. *)
Theorem backup_views_write_no_file (n : string) (i : Z) (w : World) :
  fs (snd (view_backup n w)) = fs w /\
  fs (snd (download_backup_record n i w)) = fs w.
Proof.
  split; apply map_eq; intros p.
  - assert (H : frame (fun _ => True) (view_backup n) (fun _ => True));
      [|now apply H].
    unfold view_backup, with_closing.
    apply frame_try; [|intros e; frame_log_ret].
    eapply frame_bind; [|intros l _; now apply frame_ret].
    eapply frame_bind; [apply frame_get_backup_db|].
    intros db _. apply frame_execute_query.
  - assert (H : frame (fun _ => True) (download_backup_record n i)
                  (fun _ => True)); [|now apply H].
    unfold download_backup_record, with_closing.
    apply frame_try; [|intros e; frame_log_ret].
    eapply frame_bind.
    + eapply frame_bind; [apply frame_get_backup_db|].
      intros db _. apply frame_execute_query.
    + intros [r|] _; [frame_log_ret|now apply frame_ret].
Qed.

(** *** Inserting and looking up *)

Lemma find_app_none {T} (f : T -> bool) (l l' : list T) :
  List.find f l = None -> List.find f (l ++ l') = List.find f l'.
Proof.
  induction l as [|x l IH]; simpl; [reflexivity|].
  destruct (f x); [discriminate|exact IH].
Qed.

Lemma select_by_id_inserted (t : Table) (now : datetime) (d : Data) :
  select_by_id (insert_row t now d) (next_rowid t) =
    Some {| id := next_rowid t; fields := d;
            submitted_at := CURRENT_TIMESTAMP now |}.
Proof.
  unfold select_by_id, insert_row. cbn [rows].
  rewrite find_app_none.
  - cbn [List.find id]. now rewrite Z.eqb_refl.
  - apply (proj2 (select_by_id_None t (next_rowid t))).
    intros r Hr. apply next_rowid_above_rows in Hr. lia.
Qed.

(** X9: a record that [submit] has inserted is found under its new id:
    the edit page shows it and [download_record] returns its text, with
    the normalized fields and the timestamp of the insertion. *)
Theorem submit_then_lookup (now : datetime) (form : gmap string string)
    (w : World) (t : Table) :
  store_ready w t ->
  select_by_account t (account_number (normalize form)) = None ->
  let created := {| id := next_rowid t; fields := normalize form;
                    submitted_at := CURRENT_TIMESTAMP now |} in
  let after := snd (submit now form w) in
  fst (edit GET (next_rowid t) ∅ after) =
    Ok {| flashed := [];
          body := render_template "edit.html" (SubmissionContext created);
          status := 200 |} /\
  fst (download_record (next_rowid t) after) =
    Ok {| flashed := [];
          body := attachment (record_details created)
                    ("record_" +:+ pretty (next_rowid t) +:+ ".txt");
          status := 200 |}.
Proof.
  intros Hw Hn created after. subst after.
  rewrite (submit_fresh _ _ _ _ Hw Hn). cbn [snd].
  pose proof (store_ready_insert w t (insert_row t now (normalize form))
    ((log w ++ [(DEBUG, "Database connection established on attempt %d.")])
       ++ [(INFO, "New registration added for %s.")]) Hw) as Hw'.
  split.
  - rewrite (edit_get_ready _ _ _ _ Hw'). now rewrite select_by_id_inserted.
  - rewrite (proj1 (download_record_ready _ _ _ Hw')).
    now rewrite select_by_id_inserted.
Qed.

(** X10: of two submissions with the same normalized account number the
    second is rejected: after a successful [submit], a [submit] of any
    form whose account number is the same up to case answers with the
    duplicate error and leaves the files as the first one left them. *)
Theorem second_submit_is_rejected (now now' : datetime)
    (form form' : gmap string string) (w : World) (t : Table) :
  store_ready w t ->
  select_by_account t (account_number (normalize form)) = None ->
  upper (form_get form' "account_number") =
    upper (form_get form "account_number") ->
  let after := snd (submit now form w) in
  fst (submit now' form' after) = Ok duplicate_response /\
  fs (snd (submit now' form' after)) = fs after /\
  live_table after = Some (insert_row t now (normalize form)).
Proof.
  intros Hw Hn Ha after. subst after.
  rewrite (submit_fresh _ _ _ _ Hw Hn). cbn [snd].
  pose proof (store_ready_insert w t (insert_row t now (normalize form))
    ((log w ++ [(DEBUG, "Database connection established on attempt %d.")])
       ++ [(INFO, "New registration added for %s.")]) Hw) as Hw'.
  destruct (select_by_account (insert_row t now (normalize form))
              (account_number (normalize form'))) as [r|] eqn:E.
  - rewrite (submit_duplicate _ _ _ _ _ Hw' E). repeat split.
    unfold live_table. cbn [fs]. now rewrite lookup_insert_eq.
  - rewrite select_by_account_None in E. exfalso.
    apply (E {| id := next_rowid t; fields := normalize form;
                submitted_at := CURRENT_TIMESTAMP now |}).
    + unfold insert_row; cbn [rows]. apply in_or_app. right. now left.
    + cbn [fields normalize account_number]. now symmetry.
Qed.

(** *** Editing *)

Ltac edit_key k :=
  rewrite (form_item_pure _ k);
  let E := fresh "E" in destruct (_ !! k) eqn:E.

Lemma edit_parameters_ok (form : gmap string string) (w w' : World) (d : Data) :
  edit_parameters form w = (Ok d, w') ->
  Forall (fun kp : string * (Data -> string) => is_Some (form !! kp.1))
    recognized_fields /\ d = normalize form.
Proof.
  unfold edit_parameters, bind.
  edit_key "state_code"; [|discriminate].
  edit_key "corps_member_name"; [|discriminate].
  edit_key "sex"; [|discriminate].
  edit_key "bank_name"; [|discriminate].
  edit_key "account_number"; [|discriminate].
  edit_key "phone_number"; [|discriminate].
  edit_key "callup_number"; [|discriminate].
  edit_key "callup_letter_name"; [|discriminate].
  edit_key "account_name"; [|discriminate].
  intros [= <- _]. split.
  - unfold recognized_fields.
    repeat (apply Forall_cons; split; [cbn [fst]; eauto|]).
    now apply Forall_nil.
  - unfold normalize, form_get. now rewrite E, E0, E1, E2, E3, E4, E5, E6, E7.
Qed.

Lemma edit_parameters_complete (form : gmap string string) (w : World) :
  Forall (fun kp : string * (Data -> string) => is_Some (form !! kp.1))
    recognized_fields ->
  edit_parameters form w = (Ok (normalize form), w).
Proof.
  intros H. destruct (edit_parameters_pure form w) as [[d|e] Hp].
  - rewrite Hp. now destruct (edit_parameters_ok _ _ _ _ (Hp w)) as [_ ->].
  - exfalso. specialize (Hp w). revert Hp. unfold recognized_fields in H.
    repeat (let Hk := fresh "Hk" in
            apply Forall_cons in H as [Hk H]; cbv beta in Hk; cbn [fst] in Hk;
            destruct Hk as [? ?]).
    unfold edit_parameters, bind, form_item.
    repeat match goal with
           | E : ?m !! ?k = Some _ |- _ => rewrite E; clear E
           end.
    discriminate.
Qed.

Lemma edit_parameters_missing (form : gmap string string) :
  Exists (fun kp : string * (Data -> string) => form !! kp.1 = None)
    recognized_fields ->
  exists e, forall w, edit_parameters form w = (Raise e, w).
Proof.
  intros H. pose (w0 := {| fs := ∅; log := [] |}).
  destruct (edit_parameters_pure form w0) as [[d|e] Hp]; [|now exists e].
  exfalso. destruct (edit_parameters_ok _ _ _ _ (Hp w0)) as [Hall _].
  apply Exists_exists in H as (kp & Hin & Hnone).
  rewrite List.Forall_forall in Hall. apply list_elem_of_In in Hin.
  destruct (Hall kp Hin) as [v Hv]. congruence.
Qed.

(** X11: a form that lacks one of the nine fields makes [edit] on POST
    answer with its error page and status 500, and nothing is written:
    the record keeps all its fields. *)
Theorem edit_with_missing_field_changes_nothing (i : Z)
    (form : gmap string string) (w : World) (t : Table) :
  store_ready w t ->
  Exists (fun kp : string * (Data -> string) => form !! kp.1 = None)
    recognized_fields ->
  fst (edit POST i form w) = Ok edit_error_response /\
  fs (snd (edit POST i form w)) = fs w.
Proof.
  intros Hw Hm. destruct (edit_parameters_missing _ Hm) as [e He].
  unfold edit, with_closing, try_except, bind. cbv beta zeta.
  rewrite (get_db_ready _ _ Hw), He. now split.
Qed.

Lemma update_row_absent (t : Table) (i : Z) (d : Data) :
  (forall r, In r (rows t) -> id r <> i) -> update_row t i d = t.
Proof.
  intros H. destruct t as [l s]. unfold update_row; cbn [rows seq] in *.
  f_equal. rewrite <- (List.map_id l) at 2. apply List.map_ext_in.
  intros r Hr. apply H in Hr. apply Z.eqb_neq in Hr. now rewrite Hr.
Qed.

(** X12: [edit] on POST of an id sqlite3 can bind and that no record has
    answers "Update successful!" and changes nothing. *)
Theorem edit_of_missing_id_changes_nothing (i : Z)
    (form : gmap string string) (w : World) (t : Table) :
  bindable i ->
  store_ready w t ->
  Forall (fun kp : string * (Data -> string) => is_Some (form !! kp.1))
    recognized_fields ->
  (forall r, In r (rows t) -> id r <> i) ->
  fst (edit POST i form w) = Ok updated_response /\
  fs (snd (edit POST i form w)) = fs w.
Proof.
  intros _ Hw Hc Hno.
  rewrite (edit_post_ready _ _ _ _ (normalize form) Hw)
    by (intros w'; now apply edit_parameters_complete).
  split; [reflexivity|]. cbn [snd fs].
  rewrite (update_row_absent _ _ _ Hno). apply insert_id, Hw.
Qed.

(** X13: after [edit] on POST with a complete form, the edit page of
    that id shows the record with its nine fields replaced by the
    upper-cased form values and its id and timestamp as before. *)
Theorem edit_then_lookup (i : Z) (form : gmap string string) (w : World)
    (t : Table) (r : Row) :
  store_ready w t ->
  Forall (fun kp : string * (Data -> string) => is_Some (form !! kp.1))
    recognized_fields ->
  select_by_id t i = Some r ->
  fst (edit POST i form w) = Ok updated_response /\
  fst (edit GET i ∅ (snd (edit POST i form w))) =
    Ok {| flashed := [];
          body := render_template "edit.html"
                    (SubmissionContext {| id := i; fields := normalize form;
                                          submitted_at := submitted_at r |});
          status := 200 |}.
Proof.
  intros Hw Hc Hr.
  rewrite (edit_post_ready _ _ _ _ (normalize form) Hw)
    by (intros w'; now apply edit_parameters_complete).
  split; [reflexivity|]. cbn [snd].
  rewrite (edit_get_ready _ _ _ _ (store_ready_insert _ _ _ _ Hw)).
  rewrite select_by_id_update, Hr.
  apply select_by_id_Some in Hr as [_ Hid]. subst i.
  now rewrite Z.eqb_refl.
Qed.

(** *** Searching without a query *)

(** X14: a search form without the [query] field is answered with the
    error page and status 500 before any connection is opened: no file
    changes and the log gains the one error record. *)
Theorem search_without_query (form : gmap string string) (w : World) :
  form !! "query" = None ->
  search form w =
    (Ok search_error_response,
     {| fs := fs w; log := log w ++ [(ERROR, "Error during search: %s")] |}).
Proof.
  intros H. unfold search, try_except, bind, form_item. now rewrite H.
Qed.

(** *** Deleting twice *)

Lemma delete_row_twice (t : Table) (i : Z) :
  delete_row (delete_row t i) i = delete_row t i.
Proof.
  apply delete_row_absent. intros r Hr. now apply delete_row_In in Hr.
Qed.

(** X15: [delete] of the same id a second time, the id being one sqlite3
    can bind, answers with the success message again and changes no file. *)
Theorem delete_twice (i : Z) (w : World) (t : Table) :
  bindable i ->
  store_ready w t ->
  let after := snd (delete i w) in
  fst (delete i after) = Ok deleted_response /\
  fs (snd (delete i after)) = fs after.
Proof.
  intros _ Hw after. subst after. rewrite (delete_ready _ _ _ Hw). cbn [snd].
  rewrite (delete_ready _ _ _ (store_ready_insert _ _ _ _ Hw)).
  split; [reflexivity|]. cbn [snd fs].
  now rewrite delete_row_twice, insert_insert_eq.
Qed.

(** *** The primary key along a run of requests *)

Lemma handle_table (m : mutation) (w : World) (t : Table) :
  store_ready w t ->
  exists t',
    store_ready (snd (handle m w)) t' /\
    (t' = t \/ (exists now d, t' = insert_row t now d) \/
     (exists i d, t' = update_row t i d) \/ exists i, t' = delete_row t i).
Proof.
  intros Hw. destruct m as [now form|i form|i]; cbn [handle].
  - destruct (select_by_account t (account_number (normalize form))) as [r|] eqn:E.
    + rewrite (submit_duplicate _ _ _ _ _ Hw E). exists t.
      split; [|now left]. now apply (fun H => store_ready_same_fs w _ t H Hw).
    + rewrite (submit_fresh _ _ _ _ Hw E). eexists.
      split; [exact (store_ready_insert _ _ _ _ Hw)|]. right; left. eauto.
  - destruct (edit_parameters_pure form w) as [[d|e] Hp].
    + rewrite (edit_post_ready _ _ _ _ _ Hw Hp). eexists.
      split; [exact (store_ready_insert _ _ _ _ Hw)|]. right; right; left. eauto.
    + destruct (edit_post_bad_request i _ _ _ _ Hw Hp) as [Hfs _].
      exists t. split; [exact (store_ready_same_fs _ _ _ Hfs Hw)|now left].
  - rewrite (delete_ready _ _ _ Hw). eexists.
    split; [exact (store_ready_insert _ _ _ _ Hw)|]. right; right; right. eauto.
Qed.

Lemma map_id_update_row (t : Table) (i : Z) (d : Data) :
  List.map id (rows (update_row t i d)) = List.map id (rows t).
Proof.
  unfold update_row; cbn [rows]. rewrite List.map_map. apply List.map_ext.
  intros r. now destruct (id r =? i)%Z.
Qed.

Lemma update_row_In (t : Table) (i : Z) (d : Data) (r' : Row) :
  In r' (rows (update_row t i d)) ->
  exists r, In r (rows t) /\ id r = id r' /\ submitted_at r = submitted_at r'.
Proof.
  unfold update_row; cbn [rows]. intros H.
  apply in_map_iff in H as (r & <- & Hr). exists r.
  split; [exact Hr|]. now destruct (id r =? i)%Z.
Qed.

Lemma next_rowid_positive (t : Table) : 1 <= next_rowid t.
Proof.
  unfold next_rowid. assert (0 <= max_rowid (rows t)); [|lia].
  induction (rows t) as [|x l IH]; simpl; lia.
Qed.

Lemma primary_key_step (t0 t t' : Table) :
  primary_key t -> later_table t0 t ->
  (t' = t \/ (exists now d, t' = insert_row t now d) \/
   (exists i d, t' = update_row t i d) \/ exists i, t' = delete_row t i) ->
  primary_key t' /\ later_table t0 t'.
Proof.
  intros [Hnd Hb] [Hs Hold] [->|[(now & d & ->)|[(i & d & ->)|(i & ->)]]].
  - split; split; assumption.
  - pose proof (next_rowid_above_seq t) as Hn.
    pose proof (next_rowid_positive t) as Hpos.
    split; [split|split].
    + unfold insert_row; cbn [rows]. rewrite List.map_app. cbn [List.map id].
      apply NoDup_app. split; [exact Hnd|]. split; [|apply NoDup_singleton].
      intros x Hx Hx'. apply list_elem_of_singleton in Hx'. subst x.
      apply list_elem_of_In, in_map_iff in Hx as (r & Hr & Hin).
      apply next_rowid_above_rows in Hin. lia.
    + intros r H. unfold insert_row in *; cbn [rows seq] in *.
      apply in_app_or in H as [H|[<-|[]]]; [apply Hb in H; lia|cbn [id]; lia].
    + cbn [insert_row seq]. lia.
    + intros r' Hr' Hid. unfold insert_row in Hr'; cbn [rows] in Hr'.
      apply in_app_or in Hr' as [Hr'|[<-|[]]]; [now apply Hold|].
      cbn [id] in Hid. lia.
  - split; [split|split].
    + now rewrite map_id_update_row.
    + intros r H. apply update_row_In in H as (r0 & Hr0 & <- & _).
      now apply Hb.
    + exact Hs.
    + intros r' Hr' Hid. apply update_row_In in Hr' as (r0 & Hr0 & E1 & E2).
      rewrite <- E1 in Hid. destruct (Hold r0 Hr0 Hid) as (r & Hr & E3 & E4).
      exists r. split; [exact Hr|]. split; congruence.
  - split; [split|split].
    + unfold delete_row; cbn [rows]. now apply NoDup_map_filter.
    + intros r H. apply delete_row_In in H as [H _]. now apply Hb.
    + exact Hs.
    + intros r' Hr' Hid. apply delete_row_In in Hr' as [Hr' _]. now apply Hold.
Qed.

Lemma later_table_refl (t : Table) : later_table t t.
Proof. split; [lia|]. intros r Hr _. now exists r. Qed.

Lemma serve_table (ms : list mutation) (w : World) (t0 t : Table) :
  store_ready w t -> primary_key t -> later_table t0 t ->
  exists t', store_ready (serve ms w) t' /\ primary_key t' /\ later_table t0 t'.
Proof.
  revert w t. induction ms as [|m ms IH]; intros w t Hw Hp Hl; cbn [serve].
  - now exists t.
  - destruct (handle_table m w t Hw) as (t1 & Hw1 & Hstep).
    destruct (primary_key_step t0 t t1 Hp Hl Hstep) as [Hp1 Hl1].
    exact (IH _ _ Hw1 Hp1 Hl1).
Qed.

(** X16: whatever insertions, edits and deletions a ready store serves,
    it stays a ready store whose ids are distinct and not above the
    AUTOINCREMENT counter, the counter never goes back, and a record that
    carries an id the counter had already reached at the start is one of
    the records of the start, with its timestamp: the id of a deleted
    record is not given again. *)
Theorem serve_keeps_primary_key (ms : list mutation) (w : World) (t : Table) :
  store_ready w t -> primary_key t ->
  exists t',
    store_ready (serve ms w) t' /\ primary_key t' /\ later_table t t'.
Proof.
  intros Hw Hp. exact (serve_table ms w t t Hw Hp (later_table_refl t)).
Qed.

(** *** Snapshots: names and overwriting *)

Lemma then_compare_Eq (c d : comparison) :
  then_compare c d = Eq -> c = Eq /\ d = Eq.
Proof. destruct c; simpl; intros H; (discriminate || now split). Qed.

Lemma dt_compare_Eq (a b : datetime) : dt_compare a b = Eq -> a = b.
Proof.
  unfold dt_compare. intros H.
  repeat (apply then_compare_Eq in H as [?%Nat.compare_eq H]).
  apply Nat.compare_eq in H. destruct a, b; cbn in *. congruence.
Qed.

Lemma backup_file_name_inj (a b : datetime) :
  valid_datetime a -> valid_datetime b ->
  backup_file_name a = backup_file_name b -> a = b.
Proof.
  intros Ha Hb E. apply dt_compare_Eq.
  rewrite <- (compare_backup_file_name _ _ Ha Hb), E.
  clear. induction (backup_file_name b) as [|c s IH]; [reflexivity|].
  now rewrite compare_cons_same.
Qed.

(** X17: two clock values that [backup_db] turns into the same file name
    are the same clock value: snapshots taken at different seconds get
    different names. *)
Theorem backup_file_name_injective (a b : datetime) :
  valid_datetime a -> valid_datetime b ->
  backup_file_name a = backup_file_name b -> a = b.
Proof.
  intros Ha Hb E. apply dt_compare_Eq.
  rewrite <- (compare_backup_file_name _ _ Ha Hb), E.
  clear. induction (backup_file_name b) as [|c s IH]; [reflexivity|].
  now rewrite compare_cons_same.
Qed.

Lemma frame_os_makedirs_backup_dir (keep : list string -> Prop) :
  ~ keep backup_dir ->
  frame keep (os_makedirs BACKUP_DIR) (fun _ => True).
Proof.
  intros Hk w. split; [|trivial]. intros p Hp. rewrite BACKUP_DIR_eq.
  unfold os_makedirs, makedirs_go, bind, get_fs. cbn [comps anchor].
  cbv beta iota.
  destruct (fs w !! instance_path) as [[|]|]; try reflexivity.
  change (step instance_path "backups") with backup_dir.
  destruct (fs w !! backup_dir) as [[|]|]; try reflexivity.
  simpl. apply lookup_insert_ne. congruence.
Qed.

Lemma frame_backup_db_at (now : datetime) (p : list string) :
  p <> backup_dir -> p <> snapshot_file now ->
  frame (fun q => q = p) (backup_db now) (fun _ => True).
Proof.
  intros H1 H2.
  pose proof (plain_backup_file_name now) as Hn.
  unfold backup_db, backup_db_try. apply frame_try; [|intros e; apply frame_logging].
  eapply frame_bind;
    [apply frame_os_makedirs_backup_dir; congruence|]. intros _ _. cbv zeta.
  eapply frame_bind; [apply frame_open_rb|]. intros src _.
  eapply frame_bind.
  - apply (frame_open_wb _ _ (fun q => q <> p)).
    + intros f q H. apply (resolve_backup_entry _ _ _ Hn) in H. subst q.
      split; unfold snapshot_file in H2; congruence.
    + intros f q H. apply (resolve_new_backup_entry _ _ _ Hn) in H. subst q.
      split; unfold snapshot_file in H2; congruence.
  - intros dst Hdst. eapply frame_bind; [apply frame_file_read|]. intros c _.
    eapply frame_bind; [|intros _ _; apply frame_logging].
    unfold file_write. apply (frame_put_node _ _ _ (fun _ => True)); auto.
Qed.

(** X18: where the instance folder exists, [backup_db] writes at most two
    nodes, the backup directory (when it has to create it) and the
    snapshot file of its clock value; every other node, the live database
    file and the earlier snapshots among them, is left as it was. *)
Theorem backup_db_writes_only_its_snapshot (now : datetime) (w : World)
    (p : list string) :
  fs w !! instance_path = Some Dir ->
  p <> backup_dir -> p <> snapshot_file now ->
  fs (snd (backup_db now w)) !! p = fs w !! p.
Proof.
  intros _ H1 H2. destruct (frame_backup_db_at now p H1 H2 w) as [H _].
  now apply H.
Qed.

(** X19: a snapshot taken at one clock value is not changed by a backup
    at another. *)
Theorem backup_db_keeps_other_snapshots (earlier now : datetime) (w : World) :
  valid_datetime earlier -> valid_datetime now -> earlier <> now ->
  fs (snd (backup_db now w)) !! snapshot_file earlier =
  fs w !! snapshot_file earlier.
Proof.
  intros He Hn Hne.
  refine (proj1 (frame_backup_db_at now (snapshot_file earlier) _ _ w) _ eq_refl).
  - apply backup_entry_not_backup_dir.
  - unfold snapshot_file. intros E. apply app_inv_head in E.
    assert (E' : backup_file_name earlier = backup_file_name now) by congruence.
    apply Hne. apply backup_file_name_inj; assumption.
Qed.

Lemma serve_ready (ms : list mutation) (w : World) (t : Table) :
  store_ready w t -> exists t', store_ready (serve ms w) t'.
Proof.
  revert w t. induction ms as [|m ms IH]; intros w t Hw; cbn [serve].
  - now exists t.
  - destruct (handle_table m w t Hw) as (t1 & Hw1 & _). exact (IH _ _ Hw1).
Qed.

(** X20: a second backup within the same clock second replaces the first:
    after the requests served in between, the snapshot file of that
    second holds the table the live store has then, not the one it was
    taken from. *)
Theorem backup_in_same_second_overwrites (now : datetime) (w : World)
    (t : Table) (ms : list mutation) :
  store_ready w t ->
  (forall c, fs w !! backup_dir <> Some (File c)) ->
  fs w !! snapshot_file now <> Some Dir ->
  let before := serve ms (snd (backup_db now w)) in
  exists t',
    store_ready before t' /\
    fs before !! snapshot_file now = Some (File (Some t)) /\
    fs (snd (backup_db now before)) !! snapshot_file now = Some (File (Some t')).
Proof.
  intros Hw Hb Hs before.
  destruct (backup_db_creates now w t Hw Hb Hs) as (w1 & Hrun & Hi & Hd & Hf & Hl).
  subst before. rewrite Hrun. cbn [snd].
  destruct (serve_ready ms w1 t (conj Hi Hl)) as [t' Hw'].
  exists t'. split; [exact Hw'|].
  assert (Hd' : fs (serve ms w1) !! backup_dir = Some Dir)
    by (rewrite serve_frame; [exact Hd|apply backup_dir_not_db_file]).
  assert (Hf' : fs (serve ms w1) !! snapshot_file now = Some (File (Some t)))
    by (rewrite serve_frame; [exact Hf|apply backup_entry_not_db_file]).
  split; [exact Hf'|].
  destruct (backup_db_creates now (serve ms w1) t' Hw') as (w2 & Hrun2 & _ & _ & Hf2 & _).
  - intros c. rewrite Hd'. discriminate.
  - rewrite Hf'. discriminate.
  - now rewrite Hrun2.
Qed.

(** X21: a name that resolves to nothing makes [view_backup] and
    [download_backup_record] answer with their error pages and status
    500. *)
Theorem backup_views_of_missing_name (n : string) (i : Z) (w : World) :
  resolve (fs w) (os_path_join BACKUP_DIR n) = None ->
  fst (view_backup n w) = Ok backup_error_response /\
  fst (download_backup_record n i w) =
    Ok {| flashed := [("An error occurred during download.", "danger")];
          body := redirect "view_backup" [("backup_filename", n)];
          status := 500 |}.
Proof.
  intros H. split.
  - unfold view_backup, with_closing, try_except, bind.
    now rewrite (get_backup_db_missing _ _ H).
  - unfold download_backup_record, with_closing, try_except, bind.
    now rewrite (get_backup_db_missing _ _ H).
Qed.

(** *** Listing the backups *)

Lemma child_name_Some (d p : list string) (n : string) :
  child_name d p = Some n <-> p = d ++ [n].
Proof.
  unfold child_name. split.
  - case_decide as H; [|discriminate]. destruct H as [Ht Hl]. intros Hlast.
    rewrite <- (take_drop (length d) p), Ht. f_equal.
    assert (Hd : length (drop (length d) p) = 1%nat)
      by (rewrite length_drop; lia).
    destruct (drop (length d) p) as [|x [|y l]] eqn:E; try discriminate.
    rewrite <- (take_drop (length d) p), E, last_snoc in Hlast. congruence.
  - intros ->. rewrite decide_True.
    + apply last_snoc.
    + split; [now rewrite take_app_length|]. rewrite length_app. simpl. lia.
Qed.

Lemma children_In (f : gmap (list string) node) (d : list string) (n : string) :
  In n (children f d) <-> is_Some (f !! (d ++ [n])).
Proof.
  unfold children. rewrite <- list_elem_of_In, list_elem_of_omap. split.
  - intros (p & Hp & Hc). apply child_name_Some in Hc. subst p.
    apply list_elem_of_fmap in Hp as ([q x] & -> & Hq).
    apply elem_of_map_to_list in Hq. cbn [fst]. eauto.
  - intros [x Hx]. exists (d ++ [n]). split; [|now apply child_name_Some].
    apply list_elem_of_fmap. exists (d ++ [n], x).
    split; [reflexivity|]. now apply elem_of_map_to_list.
Qed.

Lemma endswith_backup_file_name (now : datetime) :
  endswith ".db" (backup_file_name now) = true.
Proof. reflexivity. Qed.

(** X22: after [backup_db] has succeeded, [list_backups] renders a list
    that contains the name of the new snapshot. *)
Theorem list_backups_shows_new_snapshot (now : datetime) (w : World) (t : Table) :
  store_ready w t ->
  (forall c, fs w !! backup_dir <> Some (File c)) ->
  fs w !! snapshot_file now <> Some Dir ->
  exists names,
    fst (list_backups (snd (backup_db now w))) =
      Ok {| flashed := [];
            body := render_template "admin_backups.html" (BackupsContext names);
            status := 200 |} /\
    In (backup_file_name now) names.
Proof.
  intros Hw Hb Hs.
  destruct (backup_db_creates now w t Hw Hb Hs) as (w1 & Hrun & Hi & Hd & Hf & _).
  rewrite Hrun. cbn [snd]. eexists. split.
  - unfold list_backups, try_except, bind. cbv beta zeta.
    now rewrite (os_listdir_backup _ Hi Hd).
  - unfold sorted_reverse. apply in_rev. rewrite List.rev_involutive.
    apply list_elem_of_In. rewrite merge_sort_Permutation.
    apply list_elem_of_In, filter_In. split.
    + apply children_In. unfold snapshot_file in Hf. rewrite Hf. eauto.
    + apply endswith_backup_file_name.
Qed.

(** X23: without a backup directory [list_backups] answers with its
    error page and status 500 and creates nothing. *)
Theorem list_backups_without_directory (w : World) :
  fs w !! instance_path = Some Dir -> fs w !! backup_dir = None ->
  fst (list_backups w) = Ok list_backups_error_response /\
  fs (snd (list_backups w)) = fs w.
Proof.
  intros Hi Hb.
  assert (E : os_listdir BACKUP_DIR w = (Raise FileNotFoundError, w)).
  { rewrite BACKUP_DIR_eq. unfold os_listdir, bind, get_fs, resolve.
    cbn [anchor comps walk]. cbv beta iota. rewrite Hi.
    change (step instance_path "backups") with backup_dir. now rewrite Hb. }
  unfold list_backups, try_except, bind. cbv beta zeta. now rewrite E.
Qed.

(** *** The dashboard *)

(** X24: on a ready store [admin_dashboard] lists every record once, in
    descending order of [submitted_at]. *)
Theorem admin_dashboard_lists_newest_first (w : World) (t : Table) :
  store_ready w t ->
  exists listed,
    fst (admin_dashboard w) =
      Ok {| flashed := [];
            body := render_template "admin_dashboard.html"
                      (SubmissionsContext listed);
            status := 200 |} /\
    listed ≡ₚ rows t /\
    StronglySorted (fun a b => String.le (submitted_at b) (submitted_at a))
      listed.
Proof.
  intros Hw. exists (select_all_desc t).
  split; [exact (admin_dashboard_ready _ _ Hw)|].
  split; [apply select_all_desc_Permutation|apply select_all_desc_sorted].
Qed.

(** *** Inserting and searching *)

(** X25: a record that [submit] has inserted from a form of ASCII values,
    without NUL in the account number, the name and the state code, is
    found by [search] under every query without [%], [_] and NUL, with a
    pattern [%q%] within SQLite's limit on the length of a pattern, that
    occurs, up to ASCII case, in its normalized account number, name or
    state code. *)
Theorem submit_then_search (now : datetime) (form query : gmap string string)
    (q : string) (w : World) (t : Table) :
  store_ready w t ->
  select_by_account t (account_number (normalize form)) = None ->
  forallb (fun kp : string * (Data -> string) => is_ascii (form_get form kp.1))
    recognized_fields = true ->
  searched_nul_free {| id := next_rowid t; fields := normalize form;
                       submitted_at := CURRENT_TIMESTAMP now |} = true ->
  query !! "query" = Some q ->
  wildcard_free q = true -> nul_free q = true ->
  Z.of_nat (String.length ("%" +:+ q +:+ "%")) <= like_pattern_limit ->
  icontains q (account_number (normalize form)) = true \/
  icontains q (corps_member_name (normalize form)) = true \/
  icontains q (state_code (normalize form)) = true ->
  exists results,
    fst (search query (snd (submit now form w))) =
      Ok {| flashed := [];
            body := render_template "admin_dashboard.html"
                      (SubmissionsContext results);
            status := 200 |} /\
    In {| id := next_rowid t; fields := normalize form;
          submitted_at := CURRENT_TIMESTAMP now |} results.
Proof.
  intros Hw Hn _ _ Hq Hwf _ _ Hc.
  rewrite (submit_fresh _ _ _ _ Hw Hn). cbn [snd].
  eexists. split.
  - exact (search_ready _ _ _ _ (store_ready_insert _ _ _ _ Hw) Hq).
  - unfold select_like. apply filter_In. split.
    + unfold insert_row; cbn [rows]. apply in_or_app. right. now left.
    + cbn [fields]. rewrite !(like_literal _ _ Hwf).
      destruct Hc as [E | [E | E]]; rewrite E; now rewrite ?orb_true_r.
Qed.

(** *** Starting up *)

(** X26: [init_db] followed by [backup_db], as the start-up runs them, on
    an instance folder without a table: the live store is ready with the
    empty table, and the snapshot of that moment holds the empty table
    and is shown empty by [view_backup]. *)
Theorem init_db_then_backup_db (now : datetime) (w : World) :
  store_uninitialised w ->
  (forall c, fs w !! backup_dir <> Some (File c)) ->
  fs w !! snapshot_file now <> Some Dir ->
  let started := snd (backup_db now (snd (init_db w))) in
  store_ready started empty_table /\
  fs started !! snapshot_file now = Some (File (Some empty_table)) /\
  fst (view_backup (backup_file_name now) started) =
    Ok {| flashed := [];
          body := render_template "admin_backup_dashboard.html"
                    (BackupSubmissionsContext [] (backup_file_name now));
          status := 200 |}.
Proof.
  intros Hu Hb Hs started.
  pose proof Hu as [Hd0 _].
  assert (Hw0 : store_ready (snd (init_db w)) empty_table).
  { rewrite (init_db_uninitialised _ Hu). cbn [snd]. split; cbn [fs].
    - rewrite !lookup_insert_ne by (apply not_eq_sym, db_file_not_instance).
      exact Hd0.
    - apply lookup_insert_eq. }
  assert (Hfr : forall p, p <> db_file ->
                  fs (snd (init_db w)) !! p = fs w !! p).
  { intros p Hp. rewrite (init_db_uninitialised _ Hu). cbn [snd fs].
    now rewrite !lookup_insert_ne by congruence. }
  assert (Hb0 : forall c, fs (snd (init_db w)) !! backup_dir <> Some (File c))
    by (intros c; rewrite Hfr; [apply Hb|apply backup_dir_not_db_file]).
  assert (Hs0 : fs (snd (init_db w)) !! snapshot_file now <> Some Dir)
    by (rewrite Hfr; [apply Hs|apply backup_entry_not_db_file]).
  destruct (backup_db_creates now _ _ Hw0 Hb0 Hs0)
    as (w1 & Hrun & Hi & Hd & Hf & Hl).
  subst started. rewrite Hrun. cbn [snd].
  split; [now split|]. split; [exact Hf|].
  exact (view_backup_entry _ _ _ (plain_backup_file_name now) Hi Hd Hf).
Qed.

(** *** File names stay in the backup directory *)

(** X27: a name without [/] that is neither empty, [.] nor [..] makes
    [get_backup_db] open the entry of that name in the backup directory
    and no other file, and the file system is left as it was. *)
Theorem file_name_opens_inside_backup_directory (n : string) (w w' : World)
    (c : Connection) :
  plain_name n = true ->
  get_backup_db n w = (Ok c, w') ->
  conn_file c = backup_dir ++ [n] /\
  fs w !! (backup_dir ++ [n]) = Some (File (conn_image c)) /\
  fs w' = fs w.
Proof.
  intros Hn. unfold get_backup_db, os_path_exists, bind, get_fs.
  cbv beta zeta iota.
  destruct (resolve (fs w) (os_path_join BACKUP_DIR n)) as [q|] eqn:E;
    cbn [ret negb]; cbv beta iota; [|discriminate].
  unfold sqlite3_connect, bind, get_fs. cbv beta iota. rewrite E.
  apply (resolve_backup_entry _ _ _ Hn) in E. subst q.
  destruct (fs w !! (backup_dir ++ [n])) as [[|img]|]; try discriminate.
  intros [= <- <-]. now repeat split.
Qed.

End App.

(** ** The claims on sample stores *)

Lemma world_two_rows_ready :
  store_ready sample_instance world_two_rows two_rows.
Proof. split; vm_compute; reflexivity. Defined.

Lemma world_empty_ready :
  store_ready sample_instance world_empty empty_table.
Proof. split; vm_compute; reflexivity. Defined.

Lemma two_rows_unique : unique_accounts two_rows.
Proof.
  unfold unique_accounts, two_rows; simpl.
  apply NoDup_cons. split; [|apply NoDup_singleton].
  rewrite list_elem_of_singleton. discriminate.
Qed.

(** C1: the account number is not kept unique by [edit]. On a store whose
    two records have distinct account numbers, editing the second record
    and giving it the account number of the first is answered with
    "Update successful!" and leaves two live records with the same account
    number. *)
Theorem edit_breaks_account_uniqueness :
  unique_accounts two_rows /\
  fst (edit sample_instance POST 2 (form_of "0123456789" "bayo ali")
         world_two_rows) = Ok updated_response /\
  exists t',
    live_table sample_instance
      (snd (edit sample_instance POST 2 (form_of "0123456789" "bayo ali")
              world_two_rows)) = Some t' /\
    List.map (fun r => (id r, account_number (fields r))) (rows t') =
      [(1, "0123456789"); (2, "0123456789")] /\
    ~ unique_accounts t'.
Proof.
  split; [exact two_rows_unique|]. split; [vm_compute; reflexivity|].
  eexists. split; [vm_compute; reflexivity|]. split; [reflexivity|].
  unfold unique_accounts; simpl. intros H.
  apply NoDup_cons in H as [H _]. apply H. constructor.
Qed.

(** C2, the claim as stated fails: what [submit] returns does not carry
    the created record. No reading of the response gives the fields of the
    inserted row for every payload, since two different payloads are
    answered alike. *)
Lemma submit_response_carries_no_record :
  ~ exists read : Response -> Row,
      forall form,
        select_by_account empty_table (account_number (normalize form)) = None ->
        exists response,
          fst (submit sample_instance noon form world_empty) = Ok response /\
          fields (read response) = normalize form.
Proof.
  intros [read H].
  destruct (H (form_of "3333333333" "chidi eze") eq_refl) as (r1 & E1 & F1).
  destruct (H (form_of "4444444444" "dayo ojo") eq_refl) as (r2 & E2 & F2).
  vm_compute in E1, E2. injection E1 as <-. injection E2 as <-.
  rewrite F1 in F2. vm_compute in F2. discriminate.
Qed.

Lemma submit_rejects_duplicate_or_appends_row_witness :
  (fst (submit sample_instance noon (form_of "0123456789" "x") world_two_rows)
     = Ok duplicate_response /\
   fs (snd (submit sample_instance noon (form_of "0123456789" "x") world_two_rows))
     = fs world_two_rows)
  /\
  (exists r,
     fst (submit sample_instance noon (form_of "5555555555" "y") world_two_rows)
       = Ok registered_response /\
     store_ready sample_instance
       (snd (submit sample_instance noon (form_of "5555555555" "y") world_two_rows))
       {| rows := rows two_rows ++ [r]; seq := id r |} /\
     (forall p, p <> db_file sample_instance ->
        fs (snd (submit sample_instance noon (form_of "5555555555" "y")
                   world_two_rows)) !! p = fs world_two_rows !! p) /\
     fields r = normalize (form_of "5555555555" "y") /\
     submitted_at r = CURRENT_TIMESTAMP noon /\
     (forall r0, In r0 (rows two_rows) -> id r0 < id r) /\
     seq two_rows < id r).
Proof.
  split.
  - apply (submit_rejects_duplicate_or_appends_row sample_instance noon
             (form_of "0123456789" "x") world_two_rows two_rows
             world_two_rows_ready).
    exists ada. split; [now left|vm_compute; reflexivity].
  - apply (submit_rejects_duplicate_or_appends_row sample_instance noon
             (form_of "5555555555" "y") world_two_rows two_rows
             world_two_rows_ready).
    intros r [<-|[<-|[]]]; vm_compute; discriminate.
Defined.

(** C3, the claim as stated fails: a field is not trimmed. The state code
    [" la "] is stored as [" LA "], where trimming would give ["LA"]. *)
Lemma normalize_does_not_trim :
  state_code (normalize {[ "state_code" := " la " ]}) = " LA " /\
  upper (strip (form_get {[ "state_code" := " la " ]} "state_code")) = "LA" /\
  state_code (normalize {[ "state_code" := " la " ]}) <>
    upper (strip (form_get {[ "state_code" := " la " ]} "state_code")).
Proof. split; [|split]; vm_compute; (reflexivity || discriminate). Qed.

Lemma normalize_uppercases_and_fills_witness :
  account_number (normalize (form_of " ab12 " "ada")) = " AB12 " /\
  is_ascii (form_get (form_of " ab12 " "ada") "account_number") = true /\
  String.length (account_number (normalize (form_of " ab12 " "ada"))) =
    String.length (form_get (form_of " ab12 " "ada") "account_number") /\
  submit sample_instance noon (form_of " ab12 " "ada") world_empty =
    submit sample_instance noon (form_of " AB12 " "ADA") world_empty /\
  preview (form_of " ab12 " "ada") world_empty =
    preview (form_of " AB12 " "ADA") world_empty.
Proof.
  pose proof (normalize_uppercases_and_fills sample_instance
                (form_of " ab12 " "ada")) as (Hf & Hs & Hp).
  assert (Ha : is_ascii (form_get (form_of " ab12 " "ada") "account_number")
               = true) by (vm_compute; reflexivity).
  split; [vm_compute; reflexivity|]. split; [exact Ha|]. split; [|split].
  - unfold recognized_fields in Hf.
    do 4 (apply Forall_cons in Hf as [_ Hf]).
    apply Forall_cons in Hf as [Hk _]. cbv beta zeta in Hk. cbn [fst snd] in Hk.
    destruct Hk as (_ & _ & Hk). exact (proj2 (Hk Ha)).
  - apply Hs. vm_compute. reflexivity.
  - apply Hp. vm_compute. reflexivity.
Defined.

Lemma edit_keeps_id_and_submitted_at_witness :
  exists t',
    store_ready sample_instance
      (snd (edit sample_instance POST 2 (form_of "9999999999" "bayo") world_two_rows)) t' /\
    List.map (fun r => (id r, submitted_at r)) (rows t') =
      List.map (fun r => (id r, submitted_at r)) (rows two_rows) /\
    (forall r, select_by_id two_rows 2 = Some r ->
       exists r', select_by_id t' 2 = Some r' /\
                  id r' = id r /\ submitted_at r' = submitted_at r) /\
    (forall j, j <> 2 -> select_by_id t' j = select_by_id two_rows j).
Proof.
  exact (edit_keeps_id_and_submitted_at sample_instance 2
           (form_of "9999999999" "bayo") world_two_rows two_rows
           world_two_rows_ready).
Defined.

(** C5, the claim as stated fails: [delete] of an id that no record has
    does not fail. On an empty table it answers id 7 with "Record deleted
    successfully!", the answer it gives when it removes a record. *)
Lemma delete_missing_id_reports_success :
  select_by_id empty_table 7 = None /\
  fst (delete sample_instance 7 world_empty) = Ok deleted_response /\
  fst (delete sample_instance 7 world_empty) =
    fst (delete sample_instance 1 world_two_rows) /\
  fst (delete sample_instance 7 world_empty) <> Ok not_found_response /\
  fs (snd (delete sample_instance 7 world_empty)) = fs world_empty.
Proof.
  repeat split; try (vm_compute; reflexivity).
  vm_compute. discriminate.
Qed.

Lemma delete_removes_and_reports_success_witness :
  bindable 1 /\
  fst (delete sample_instance 1 world_two_rows) = Ok deleted_response /\
  store_ready sample_instance (snd (delete sample_instance 1 world_two_rows))
    (delete_row two_rows 1) /\
  fst (edit sample_instance GET 1 ∅ (snd (delete sample_instance 1 world_two_rows)))
    = Ok not_found_response.
Proof.
  assert (Hb : bindable 1) by (split; [lia|reflexivity]).
  pose proof (delete_removes_and_reports_success sample_instance 1
                world_two_rows two_rows Hb world_two_rows_ready)
    as (H1 & H2 & _ & _ & H5 & _).
  exact (conj Hb (conj H1 (conj H2 H5))).
Defined.

(** C6, the claim as stated fails: the query is a [LIKE] pattern, not a
    literal. The query ["_"] returns both records of the store, none of
    which has an underscore in the name, the state code or the account
    number. *)
Lemma search_underscore_is_a_wildcard :
  fst (search sample_instance {[ "query" := "_" ]} world_two_rows) =
    Ok {| flashed := [];
          body := render_template "admin_dashboard.html"
                    (SubmissionsContext [ada; bayo]);
          status := 200 |} /\
  Forall (fun r => icontains "_" (corps_member_name (fields r)) = false /\
                   icontains "_" (state_code (fields r)) = false /\
                   icontains "_" (account_number (fields r)) = false)
         [ada; bayo].
Proof.
  split; [vm_compute; reflexivity|].
  repeat (apply Forall_cons; split; [repeat split; vm_compute; reflexivity|]).
  now apply Forall_nil.
Qed.

Lemma search_returns_case_insensitive_matches_witness :
  exists results,
    fst (search sample_instance {[ "query" := "ada" ]} world_two_rows) =
      Ok {| flashed := [];
            body := render_template "admin_dashboard.html"
                      (SubmissionsContext results);
            status := 200 |} /\
    (forall r, In r results <->
               In r (rows two_rows) /\
               (icontains "ada" (corps_member_name (fields r)) = true \/
                icontains "ada" (state_code (fields r)) = true \/
                icontains "ada" (account_number (fields r)) = true)) /\
    ("ada" = EmptyString -> results = rows two_rows).
Proof.
  apply (search_returns_case_insensitive_matches sample_instance
           {[ "query" := "ada" ]} "ada" world_two_rows two_rows
           world_two_rows_ready);
    first [vm_compute; reflexivity | vm_compute; discriminate].
Defined.

Lemma snapshot_unchanged_by_mutations_witness :
  fst (view_backup sample_instance (backup_file_name noon)
         (serve sample_instance
            [Submission new_year (form_of "5555555555" "chidi eze");
             Edition 1 (form_of "7777777777" "ada obi");
             Deletion 2; Deletion 1]
            (snd (backup_db sample_instance noon world_two_rows)))) =
    Ok {| flashed := [];
          body := render_template "admin_backup_dashboard.html"
                    (BackupSubmissionsContext (select_all_desc two_rows)
                       (backup_file_name noon));
          status := 200 |}.
Proof.
  assert (Hdir : forall c, fs world_two_rows !! backup_dir sample_instance
                           <> Some (File c))
    by (intros c; vm_compute; discriminate).
  assert (Hsnap : fs world_two_rows !! snapshot_file sample_instance noon
                  <> Some Dir)
    by (vm_compute; discriminate).
  exact (proj1 (proj2
    (snapshot_unchanged_by_mutations sample_instance noon world_two_rows
       two_rows
       [Submission new_year (form_of "5555555555" "chidi eze");
        Edition 1 (form_of "7777777777" "ada obi");
        Deletion 2; Deletion 1]
       world_two_rows_ready Hdir Hsnap))).
Defined.

(** C8, the claim as stated fails: an I/O error in [backup_db] does not
    reach the caller. Without a database file the [try] block raises
    [FileNotFoundError], and [backup_db] returns normally, with the error
    in the log. *)
Lemma backup_db_swallows_missing_database :
  fst (backup_db_try sample_instance noon world_without_database) =
    Raise FileNotFoundError /\
  fst (backup_db sample_instance noon world_without_database) = Ok tt /\
  log (snd (backup_db sample_instance noon world_without_database)) =
    [(ERROR, "Backup failed: %s")].
Proof. repeat split; vm_compute; reflexivity. Qed.

Lemma backup_db_keeps_live_file_and_swallows_errors_witness :
  backup_db sample_instance noon world_without_database =
    (Ok tt,
     {| fs := fs (snd (backup_db_try sample_instance noon world_without_database));
        log := log (snd (backup_db_try sample_instance noon world_without_database))
               ++ [(ERROR, "Backup failed: %s")] |}).
Proof.
  apply (backup_db_keeps_live_file_and_swallows_errors sample_instance noon
           world_without_database) with (e := FileNotFoundError).
  vm_compute. reflexivity.
Defined.

(** C9: the name given to [get_backup_db] is joined to the backup
    directory as a path and is not held inside it. The name
    ["../nysc_accounts.db"] opens the live database file, as does the
    absolute path of that file, and [view_backup] then lists the live
    records as if they were a snapshot; the name [".."] passes the
    existence check, being the instance folder, and fails only when it is
    opened, where a name without a file, such as ["nope.db"], is reported
    missing. *)
Theorem get_backup_db_leaves_backup_directory :
  fst (get_backup_db sample_instance "../nysc_accounts.db" world_with_backups) =
    Ok {| conn_file := sample_db_file; conn_image := Some two_rows |} /\
  take (length sample_backup_dir) sample_db_file <> sample_backup_dir /\
  fst (get_backup_db sample_instance "/srv/nysc/instance/nysc_accounts.db"
         world_with_backups) =
    Ok {| conn_file := sample_db_file; conn_image := Some two_rows |} /\
  fst (view_backup sample_instance "../nysc_accounts.db" world_with_backups) =
    Ok {| flashed := [];
          body := render_template "admin_backup_dashboard.html"
                    (BackupSubmissionsContext [bayo; ada] "../nysc_accounts.db");
          status := 200 |} /\
  fst (get_backup_db sample_instance ".." world_with_backups) =
    Raise (OperationalError "unable to open database file") /\
  fst (get_backup_db sample_instance "nope.db" world_with_backups) =
    Raise (Exception "Backup file does not exist.").
Proof.
  repeat split; try (vm_compute; reflexivity).
  vm_compute. discriminate.
Qed.

Lemma list_backups_newest_first_witness :
  exists listed,
    fst (list_backups sample_instance world_with_backups) =
      Ok {| flashed := [];
            body := render_template "admin_backups.html"
                      (BackupsContext (List.map backup_file_name listed));
            status := 200 |} /\
    listed ≡ₚ [morning; new_year; noon] /\
    StronglySorted not_older listed /\
    StronglySorted (fun x y => String.le y x) (List.map backup_file_name listed).
Proof.
  apply (list_backups_newest_first sample_instance world_with_backups
           [morning; new_year; noon]).
  - vm_compute. reflexivity.
  - vm_compute. reflexivity.
  - repeat (apply Forall_cons; split;
            [unfold valid_datetime; cbn; lia|]).
    now apply Forall_nil.
  - vm_compute. reflexivity.
Defined.

(** ** The further properties on sample stores *)

Lemma sample_form_complete :
  Forall (fun kp : string * (Data -> string) =>
            is_Some (form_of "9999999999" "bayo ali" !! kp.1))
    recognized_fields.
Proof.
  unfold recognized_fields.
  repeat (apply Forall_cons; split; [eexists; vm_compute; reflexivity|]).
  now apply Forall_nil.
Qed.

Lemma world_without_database_uninitialised :
  store_uninitialised sample_instance world_without_database.
Proof. split; [|left]; vm_compute; reflexivity. Qed.

Lemma world_database_is_directory_cannot_open :
  cannot_open sample_instance world_database_is_directory.
Proof. right. vm_compute. reflexivity. Qed.

Lemma two_rows_primary_key : primary_key two_rows.
Proof.
  split.
  - unfold two_rows; simpl. apply NoDup_cons. split; [|apply NoDup_singleton].
    rewrite list_elem_of_singleton. discriminate.
  - intros r [<-|[<-|[]]]; vm_compute; split; discriminate.
Qed.

Lemma init_db_creates_empty_table_witness :
  fst (init_db sample_instance world_without_database) = Ok tt /\
  store_ready sample_instance (snd (init_db sample_instance world_without_database))
    empty_table /\
  forall p, p <> db_file sample_instance ->
    fs (snd (init_db sample_instance world_without_database)) !! p =
    fs world_without_database !! p.
Proof.
  exact (init_db_creates_empty_table sample_instance world_without_database
           world_without_database_uninitialised).
Defined.

Lemma init_db_keeps_records_witness :
  fst (init_db sample_instance world_two_rows) = Ok tt /\
  fs (snd (init_db sample_instance world_two_rows)) = fs world_two_rows.
Proof.
  exact (init_db_keeps_records sample_instance world_two_rows two_rows
           world_two_rows_ready).
Defined.

Lemma get_db_gives_up_after_three_attempts_witness :
  fst (get_db sample_instance world_database_is_directory) =
    Raise (Exception "Failed to connect to database after 3 attempts") /\
  length (log (snd (get_db sample_instance world_database_is_directory))) = 4%nat.
Proof.
  rewrite (get_db_gives_up_after_three_attempts sample_instance
             world_database_is_directory
             world_database_is_directory_cannot_open).
  split; reflexivity.
Defined.

Lemma storage_failure_is_answered_500_witness :
  fst (submit sample_instance noon (form_of "5555555555" "chidi eze")
         world_database_is_directory) = Ok submit_error_response /\
  fst (delete sample_instance 1 world_database_is_directory) =
    Ok delete_error_response.
Proof.
  pose proof (storage_failure_is_answered_500 sample_instance
                world_database_is_directory noon
                (form_of "5555555555" "chidi eze") 1
                world_database_is_directory_cannot_open)
    as ((H1 & _) & (H2 & _) & _).
  exact (conj H1 H2).
Defined.

Lemma init_db_raises_storage_failure_witness :
  fst (init_db sample_instance world_database_is_directory) =
    Raise (Exception "Failed to connect to database after 3 attempts") /\
  fs (snd (init_db sample_instance world_database_is_directory)) =
    fs world_database_is_directory /\
  last (log (snd (init_db sample_instance world_database_is_directory))) =
    Some (CRITICAL, "Database initialization failed: %s").
Proof.
  apply (init_db_raises_storage_failure sample_instance
           world_database_is_directory); vm_compute; reflexivity.
Defined.

Lemma submit_without_table_stores_nothing_witness :
  fst (submit sample_instance noon (form_of "5555555555" "chidi eze")
         world_without_database) = Ok submit_error_response /\
  fs (snd (submit sample_instance noon (form_of "5555555555" "chidi eze")
             world_without_database)) !! db_file sample_instance =
    Some (File None).
Proof.
  pose proof (submit_without_table_stores_nothing sample_instance noon
                (form_of "5555555555" "chidi eze") world_without_database
                world_without_database_uninitialised) as (H1 & H2 & _).
  exact (conj H1 H2).
Defined.

Lemma reading_handlers_change_no_file_witness :
  fs (snd (admin_dashboard sample_instance world_two_rows)) = fs world_two_rows /\
  fs (snd (search sample_instance {[ "query" := "ada" ]} world_two_rows)) =
    fs world_two_rows /\
  fs (snd (edit sample_instance GET 1 {[ "query" := "ada" ]} world_two_rows)) =
    fs world_two_rows /\
  fs (snd (download_record sample_instance 1 world_two_rows)) = fs world_two_rows.
Proof.
  exact (reading_handlers_change_no_file sample_instance world_two_rows
           two_rows {[ "query" := "ada" ]} 1 world_two_rows_ready).
Defined.

Lemma submit_then_lookup_witness :
  fst (download_record sample_instance (next_rowid two_rows)
         (snd (submit sample_instance noon (form_of "5555555555" "chidi eze")
                 world_two_rows))) =
    Ok {| flashed := [];
          body := attachment
                    (record_details
                       {| id := next_rowid two_rows;
                          fields := normalize (form_of "5555555555" "chidi eze");
                          submitted_at := CURRENT_TIMESTAMP noon |})
                    ("record_" +:+ pretty (next_rowid two_rows) +:+ ".txt");
          status := 200 |}.
Proof.
  assert (H : select_by_account two_rows
                (account_number (normalize (form_of "5555555555" "chidi eze")))
              = None) by (vm_compute; reflexivity).
  exact (proj2 (submit_then_lookup sample_instance noon
                  (form_of "5555555555" "chidi eze") world_two_rows two_rows
                  world_two_rows_ready H)).
Defined.

Lemma second_submit_is_rejected_witness :
  fst (submit sample_instance new_year (form_of "AB12" "dayo ojo")
         (snd (submit sample_instance noon (form_of "ab12" "chidi eze")
                 world_two_rows))) = Ok duplicate_response.
Proof.
  assert (H : select_by_account two_rows
                (account_number (normalize (form_of "ab12" "chidi eze")))
              = None) by (vm_compute; reflexivity).
  assert (E : upper (form_get (form_of "AB12" "dayo ojo") "account_number") =
              upper (form_get (form_of "ab12" "chidi eze") "account_number"))
    by (vm_compute; reflexivity).
  exact (proj1 (second_submit_is_rejected sample_instance noon new_year
                  (form_of "ab12" "chidi eze") (form_of "AB12" "dayo ojo")
                  world_two_rows two_rows world_two_rows_ready H E)).
Defined.

Lemma edit_with_missing_field_changes_nothing_witness :
  fst (edit sample_instance POST 2 form_without_sex world_two_rows) =
    Ok edit_error_response /\
  fs (snd (edit sample_instance POST 2 form_without_sex world_two_rows)) =
    fs world_two_rows.
Proof.
  apply (edit_with_missing_field_changes_nothing sample_instance 2
           form_without_sex world_two_rows two_rows world_two_rows_ready).
  unfold recognized_fields.
  apply Exists_cons_tl, Exists_cons_tl, Exists_cons_hd.
  vm_compute. reflexivity.
Defined.

Lemma edit_of_missing_id_changes_nothing_witness :
  fst (edit sample_instance POST 9 (form_of "9999999999" "bayo ali")
         world_two_rows) = Ok updated_response /\
  fs (snd (edit sample_instance POST 9 (form_of "9999999999" "bayo ali")
             world_two_rows)) = fs world_two_rows.
Proof.
  assert (Hb : bindable 9) by (split; [lia|reflexivity]).
  apply (edit_of_missing_id_changes_nothing sample_instance 9
           (form_of "9999999999" "bayo ali") world_two_rows two_rows
           Hb world_two_rows_ready sample_form_complete).
  intros r [<-|[<-|[]]]; vm_compute; discriminate.
Defined.

Lemma edit_then_lookup_witness :
  fst (edit sample_instance POST 2 (form_of "9999999999" "bayo ali")
         world_two_rows) = Ok updated_response /\
  fst (edit sample_instance GET 2 ∅
         (snd (edit sample_instance POST 2 (form_of "9999999999" "bayo ali")
                 world_two_rows))) =
    Ok {| flashed := [];
          body := render_template "edit.html"
                    (SubmissionContext
                       {| id := 2;
                          fields := normalize (form_of "9999999999" "bayo ali");
                          submitted_at := submitted_at bayo |});
          status := 200 |}.
Proof.
  apply (edit_then_lookup sample_instance 2 (form_of "9999999999" "bayo ali")
           world_two_rows two_rows bayo world_two_rows_ready
           sample_form_complete).
  vm_compute. reflexivity.
Defined.

Lemma search_without_query_witness :
  search sample_instance ∅ world_two_rows =
    (Ok search_error_response,
     {| fs := fs world_two_rows;
        log := log world_two_rows ++ [(ERROR, "Error during search: %s")] |}).
Proof.
  apply (search_without_query sample_instance ∅ world_two_rows).
  vm_compute. reflexivity.
Defined.

Lemma delete_twice_witness :
  fst (delete sample_instance 1 (snd (delete sample_instance 1 world_two_rows))) =
    Ok deleted_response /\
  fs (snd (delete sample_instance 1
             (snd (delete sample_instance 1 world_two_rows)))) =
    fs (snd (delete sample_instance 1 world_two_rows)).
Proof.
  assert (Hb : bindable 1) by (split; [lia|reflexivity]).
  exact (delete_twice sample_instance 1 world_two_rows two_rows
           Hb world_two_rows_ready).
Defined.

Lemma serve_keeps_primary_key_witness :
  exists t',
    store_ready sample_instance
      (serve sample_instance
         [Deletion 2; Submission noon (form_of "5555555555" "chidi eze");
          Edition 1 (form_of "9999999999" "bayo ali")]
         world_two_rows) t' /\
    primary_key t' /\ later_table two_rows t'.
Proof.
  exact (serve_keeps_primary_key sample_instance
           [Deletion 2; Submission noon (form_of "5555555555" "chidi eze");
            Edition 1 (form_of "9999999999" "bayo ali")]
           world_two_rows two_rows world_two_rows_ready two_rows_primary_key).
Defined.

Lemma sample_times_valid :
  valid_datetime morning /\ valid_datetime noon /\ valid_datetime new_year.
Proof. repeat split; cbn; lia. Qed.

Lemma backup_file_name_injective_witness : noon = noon.
Proof.
  apply (backup_file_name_injective noon noon).
  - apply sample_times_valid.
  - apply sample_times_valid.
  - reflexivity.
Defined.

Lemma backup_db_writes_only_its_snapshot_witness :
  fs (snd (backup_db sample_instance noon world_two_rows)) !! sample_db_file =
  fs world_two_rows !! sample_db_file.
Proof.
  apply (backup_db_writes_only_its_snapshot sample_instance noon
           world_two_rows sample_db_file);
    first [vm_compute; reflexivity | vm_compute; discriminate].
Defined.

Lemma backup_db_keeps_other_snapshots_witness :
  fs (snd (backup_db sample_instance noon world_with_backups))
    !! snapshot_file sample_instance morning =
  fs world_with_backups !! snapshot_file sample_instance morning.
Proof.
  apply (backup_db_keeps_other_snapshots sample_instance morning noon
           world_with_backups).
  - apply sample_times_valid.
  - apply sample_times_valid.
  - discriminate.
Defined.

Lemma backup_in_same_second_overwrites_witness :
  exists t',
    store_ready sample_instance
      (serve sample_instance [Deletion 1]
         (snd (backup_db sample_instance noon world_two_rows))) t' /\
    fs (serve sample_instance [Deletion 1]
          (snd (backup_db sample_instance noon world_two_rows)))
      !! snapshot_file sample_instance noon = Some (File (Some two_rows)) /\
    fs (snd (backup_db sample_instance noon
               (serve sample_instance [Deletion 1]
                  (snd (backup_db sample_instance noon world_two_rows)))))
      !! snapshot_file sample_instance noon = Some (File (Some t')).
Proof.
  assert (Hdir : forall c, fs world_two_rows !! backup_dir sample_instance
                           <> Some (File c))
    by (intros c; vm_compute; discriminate).
  assert (Hsnap : fs world_two_rows !! snapshot_file sample_instance noon
                  <> Some Dir)
    by (vm_compute; discriminate).
  exact (backup_in_same_second_overwrites sample_instance noon world_two_rows
           two_rows [Deletion 1] world_two_rows_ready Hdir Hsnap).
Defined.

Lemma backup_views_of_missing_name_witness :
  fst (view_backup sample_instance "nope.db" world_with_backups) =
    Ok backup_error_response /\
  fst (download_backup_record sample_instance "nope.db" 1 world_with_backups) =
    Ok {| flashed := [("An error occurred during download.", "danger")];
          body := redirect "view_backup" [("backup_filename", "nope.db")];
          status := 500 |}.
Proof.
  apply (backup_views_of_missing_name sample_instance "nope.db" 1
           world_with_backups).
  vm_compute. reflexivity.
Defined.

Lemma list_backups_shows_new_snapshot_witness :
  exists names,
    fst (list_backups sample_instance
           (snd (backup_db sample_instance noon world_two_rows))) =
      Ok {| flashed := [];
            body := render_template "admin_backups.html" (BackupsContext names);
            status := 200 |} /\
    In (backup_file_name noon) names.
Proof.
  assert (Hdir : forall c, fs world_two_rows !! backup_dir sample_instance
                           <> Some (File c))
    by (intros c; vm_compute; discriminate).
  assert (Hsnap : fs world_two_rows !! snapshot_file sample_instance noon
                  <> Some Dir)
    by (vm_compute; discriminate).
  exact (list_backups_shows_new_snapshot sample_instance noon world_two_rows
           two_rows world_two_rows_ready Hdir Hsnap).
Defined.

Lemma list_backups_without_directory_witness :
  fst (list_backups sample_instance world_two_rows) =
    Ok list_backups_error_response /\
  fs (snd (list_backups sample_instance world_two_rows)) = fs world_two_rows.
Proof.
  apply (list_backups_without_directory sample_instance world_two_rows);
    vm_compute; reflexivity.
Defined.

Lemma admin_dashboard_lists_newest_first_witness :
  exists listed,
    fst (admin_dashboard sample_instance world_two_rows) =
      Ok {| flashed := [];
            body := render_template "admin_dashboard.html"
                      (SubmissionsContext listed);
            status := 200 |} /\
    listed ≡ₚ rows two_rows /\
    StronglySorted (fun a b => String.le (submitted_at b) (submitted_at a))
      listed.
Proof.
  exact (admin_dashboard_lists_newest_first sample_instance world_two_rows
           two_rows world_two_rows_ready).
Defined.

Lemma submit_then_search_witness :
  exists results,
    fst (search sample_instance {[ "query" := "chidi" ]}
           (snd (submit sample_instance noon (form_of "5555555555" "chidi eze")
                   world_two_rows))) =
      Ok {| flashed := [];
            body := render_template "admin_dashboard.html"
                      (SubmissionsContext results);
            status := 200 |} /\
    In {| id := next_rowid two_rows;
          fields := normalize (form_of "5555555555" "chidi eze");
          submitted_at := CURRENT_TIMESTAMP noon |} results.
Proof.
  apply (submit_then_search sample_instance noon
           (form_of "5555555555" "chidi eze") {[ "query" := "chidi" ]} "chidi"
           world_two_rows two_rows world_two_rows_ready).
  - vm_compute. reflexivity.
  - vm_compute. reflexivity.
  - vm_compute. reflexivity.
  - vm_compute. reflexivity.
  - reflexivity.
  - reflexivity.
  - vm_compute. discriminate.
  - right. left. vm_compute. reflexivity.
Defined.

Lemma init_db_then_backup_db_witness :
  store_ready sample_instance
    (snd (backup_db sample_instance noon
            (snd (init_db sample_instance world_without_database))))
    empty_table /\
  fs (snd (backup_db sample_instance noon
             (snd (init_db sample_instance world_without_database))))
    !! snapshot_file sample_instance noon = Some (File (Some empty_table)).
Proof.
  assert (Hdir : forall c, fs world_without_database !! backup_dir sample_instance
                           <> Some (File c))
    by (intros c; vm_compute; discriminate).
  assert (Hsnap : fs world_without_database !! snapshot_file sample_instance noon
                  <> Some Dir)
    by (vm_compute; discriminate).
  pose proof (init_db_then_backup_db sample_instance noon
                world_without_database world_without_database_uninitialised
                Hdir Hsnap) as (H1 & H2 & _).
  exact (conj H1 H2).
Defined.

Lemma file_name_opens_inside_backup_directory_witness :
  conn_file {| conn_file := sample_backup_dir ++ ["nysc_backup_2025-03-09_12-00-00.db"];
               conn_image := Some two_rows |} =
    backup_dir sample_instance ++ ["nysc_backup_2025-03-09_12-00-00.db"] /\
  fs world_with_backups
    !! (backup_dir sample_instance ++ ["nysc_backup_2025-03-09_12-00-00.db"]) =
    Some (File (Some two_rows)) /\
  fs world_with_backups = fs world_with_backups.
Proof.
  apply (file_name_opens_inside_backup_directory sample_instance
           "nysc_backup_2025-03-09_12-00-00.db" world_with_backups
           world_with_backups
           {| conn_file := sample_backup_dir ++ ["nysc_backup_2025-03-09_12-00-00.db"];
              conn_image := Some two_rows |}).
  - vm_compute. reflexivity.
  - vm_compute. reflexivity.
Defined.
